(** * universal-crypto-mcp: the x402 payment gate and the proof codec

    A shallow embedding of
      - [x402/python/legacy/src/x402/encoding.py]   (the base64 proof codec),
      - [packages/prediction-api/app/config.py]       (the settings object),
      - [packages/prediction-api/app/middleware/x402.py] (the paywall decorator),
      - [packages/prediction-api/app/main.py]         (pricing table, 402 handler),
    together with the properties of the specification that concern them. *)

From Stdlib Require Import ZArith List Bool Lia String Ascii DecimalString.
From Stdlib Require Import PrimFloat FloatOps SpecFloat.
From stdpp Require Import base option gmap strings.

Import ListNotations.
Local Open Scope string_scope.
Local Open Scope list_scope.
Local Open Scope Z_scope.
Set Warnings "-inexact-float".

(** ** Python values, exceptions and results *)

(** A Python number: the parameters annotated [float] receive whatever number
    the caller passes, an [int] or a [float] (a binary64). *)
Inductive pynum : Type :=
| PyInt (z : Z)
| PyFloat (f : float).

(** [X402PaymentRequired] (middleware/x402.py, lines 15-31): the attributes set
    by [__init__]. *)
Record X402PaymentRequired : Type := mkX402PaymentRequired {
  exc_amount : pynum;
  exc_description : string;
  exc_network : string;
  exc_recipient : string;
  exc_token : string
}.

(** The exception classes that the embedded code can raise.  The two classes
    of the application carry their payload; the built-in ones are tags. *)
Inductive exn : Type :=
| ExnX402PaymentRequired (e : X402PaymentRequired)
| HTTPException (status_code : Z) (detail : string)
| AttributeError (attr : string)
| UnicodeEncodeError
| UnicodeDecodeError
| ValueError
| OverflowError
| BinasciiError.

Inductive result (A : Type) : Type :=
| Ok (a : A)
| Raise (e : exn).
Arguments Ok {A} a.
Arguments Raise {A} e.

(** [result] is a monad; the instances give it stdpp's [x ← m; k] and
    [f <$> m]. *)
#[global] Instance result_ret : MRet result := fun _ a => Ok a.
#[global] Instance result_bind : MBind result := fun _ _ k r =>
  match r with
  | Ok a => k a
  | Raise e => Raise e
  end.
#[global] Instance result_fmap : FMap result := fun _ _ f r =>
  match r with
  | Ok a => Ok (f a)
  | Raise e => Raise e
  end.

(** ** The proof codec: x402/encoding.py *)

(** The two functions of encoding.py are compositions of built-ins:
    [str.encode], [bytes.decode], [base64.b64encode] and [base64.b64decode].
    The built-ins are modelled first, after CPython 3.11 ([unicodeobject.c],
    [binascii.c], [base64.py]); the functions of the file follow. *)

Module Encoding.

(** A Python [str] is a sequence of code points, a [bytes] object a sequence of
    integers in [0, 256). *)
Definition pystr := list Z.
Definition pybytes := list Z.

Definition is_codepoint (c : Z) : Prop := 0 <= c <= 0x10FFFF.
Definition is_surrogate (c : Z) : bool := (0xD800 <=? c) && (c <=? 0xDFFF).
(** The code points UTF-8 can carry: every code point that is no surrogate. *)
Definition is_scalar (c : Z) : Prop :=
  is_codepoint c /\ is_surrogate c = false.
Definition is_byte (b : Z) : Prop := 0 <= b < 256.

(** *** [str.encode("utf-8")] and [bytes.decode("utf-8")] (strict) *)

(** The encoder refuses the surrogates; the decoder refuses stray
    continuation bytes, truncated sequences, overlong forms, surrogates and
    values above [0x10FFFF]. *)

Definition cont (x : Z) : Z := Z.lor 0x80 (Z.land x 0x3F).

Definition utf8_encode_cp (c : Z) : result pybytes :=
  if c <? 0x80 then Ok [c]
  else if c <? 0x800 then Ok [Z.lor 0xC0 (Z.shiftr c 6); cont c]
  else if c <? 0x10000 then
    if is_surrogate c then Raise UnicodeEncodeError
    else Ok [Z.lor 0xE0 (Z.shiftr c 12); cont (Z.shiftr c 6); cont c]
  else Ok [Z.lor 0xF0 (Z.shiftr c 18); cont (Z.shiftr c 12);
           cont (Z.shiftr c 6); cont c].

Fixpoint utf8_encode (s : pystr) : result pybytes :=
  match s with
  | [] => Ok []
  | c :: s' =>
      bs ← utf8_encode_cp c;
      rest ← utf8_encode s';
      Ok (bs ++ rest)
  end.

Definition is_cont (b : Z) : bool := Z.land b 0xC0 =? 0x80.
Definition payload (b : Z) : Z := Z.land b 0x3F.

Fixpoint utf8_decode (bs : pybytes) : result pystr :=
  match bs with
  | [] => Ok []
  | b0 :: r0 =>
      if b0 <? 0x80 then cons b0 <$> utf8_decode r0
      else if b0 <? 0xC0 then Raise UnicodeDecodeError
      else if b0 <? 0xE0 then
        match r0 with
        | b1 :: r1 =>
            let c := Z.lor (Z.shiftl (Z.land b0 0x1F) 6) (payload b1) in
            if is_cont b1 && (0x80 <=? c)
            then cons c <$> utf8_decode r1
            else Raise UnicodeDecodeError
        | _ => Raise UnicodeDecodeError
        end
      else if b0 <? 0xF0 then
        match r0 with
        | b1 :: b2 :: r2 =>
            let c := Z.lor (Z.shiftl (Z.land b0 0x0F) 12)
                       (Z.lor (Z.shiftl (payload b1) 6) (payload b2)) in
            if is_cont b1 && is_cont b2 && (0x800 <=? c) && negb (is_surrogate c)
            then cons c <$> utf8_decode r2
            else Raise UnicodeDecodeError
        | _ => Raise UnicodeDecodeError
        end
      else if b0 <? 0xF8 then
        match r0 with
        | b1 :: b2 :: b3 :: r3 =>
            let c := Z.lor (Z.shiftl (Z.land b0 0x07) 18)
                       (Z.lor (Z.shiftl (payload b1) 12)
                          (Z.lor (Z.shiftl (payload b2) 6) (payload b3))) in
            if is_cont b1 && is_cont b2 && is_cont b3
               && (0x10000 <=? c) && (c <=? 0x10FFFF)
            then cons c <$> utf8_decode r3
            else Raise UnicodeDecodeError
        | _ => Raise UnicodeDecodeError
        end
      else Raise UnicodeDecodeError
  end.

(** *** [base64.b64encode] and [base64.b64decode] *)

Definition table_b2a_base64 : list Z :=
  map (fun a => Z.of_nat (nat_of_ascii a))
    (list_ascii_of_string
       "ABCDEFGHIJKLMNOPQRSTUVWXYZabcdefghijklmnopqrstuvwxyz0123456789+/").

Definition BASE64_PAD : Z := 61.

Definition b2a (i : Z) : Z := nth (Z.to_nat i) table_b2a_base64 BASE64_PAD.

Fixpoint index_of (c : Z) (l : list Z) (i : Z) : option Z :=
  match l with
  | [] => None
  | x :: l' => if x =? c then Some i else index_of c l' (i + 1)
  end.

(** The inverse table of [binascii]: the 6-bit value of an alphabet
    character, [None] for every other character. *)
Definition a2b (c : Z) : option Z := index_of c table_b2a_base64 0.

(** [binascii.b2a_base64(data, newline=False)]. *)
Fixpoint b64encode (bs : pybytes) : pybytes :=
  match bs with
  | [] => []
  | [x] =>
      [b2a (Z.shiftr x 2); b2a (Z.shiftl (Z.land x 3) 4); BASE64_PAD; BASE64_PAD]
  | [x; y] =>
      [b2a (Z.shiftr x 2);
       b2a (Z.lor (Z.shiftl (Z.land x 3) 4) (Z.shiftr y 4));
       b2a (Z.shiftl (Z.land y 0xF) 2); BASE64_PAD]
  | x :: y :: z :: r =>
      b2a (Z.shiftr x 2)
      :: b2a (Z.lor (Z.shiftl (Z.land x 3) 4) (Z.shiftr y 4))
      :: b2a (Z.lor (Z.shiftl (Z.land y 0xF) 2) (Z.shiftr z 6))
      :: b2a (Z.land z 0x3F)
      :: b64encode r
  end.

(** [binascii.a2b_base64(data)] with [strict_mode] off, as [base64.b64decode]
    calls it when [validate] is left at its default: characters outside the
    alphabet are skipped, a completed pad sequence ends the parse, and a
    quad left open at the end of the input raises [binascii.Error].  The
    arguments are the loop variables [quad_pos], [leftchar] and [pads]; an
    output byte is an [unsigned char], hence the mask. *)
Fixpoint a2b_base64 (cs : pybytes) (quad_pos : Z) (leftchar : Z) (pads : Z)
  : result pybytes :=
  match cs with
  | [] => if quad_pos =? 0 then Ok [] else Raise BinasciiError
  | c :: r =>
      if c =? BASE64_PAD then
        if 2 <=? quad_pos then
          if 4 <=? quad_pos + (pads + 1) then Ok []
          else a2b_base64 r quad_pos leftchar (pads + 1)
        else a2b_base64 r quad_pos leftchar pads
      else
        match a2b c with
        | None => a2b_base64 r quad_pos leftchar pads
        | Some this_ch =>
            if quad_pos =? 0 then a2b_base64 r 1 this_ch 0
            else if quad_pos =? 1 then
              cons (Z.land (Z.lor (Z.shiftl leftchar 2) (Z.shiftr this_ch 4)) 0xFF)
                <$> a2b_base64 r 2 (Z.land this_ch 0x0F) 0
            else if quad_pos =? 2 then
              cons (Z.land (Z.lor (Z.shiftl leftchar 4) (Z.shiftr this_ch 2)) 0xFF)
                <$> a2b_base64 r 3 (Z.land this_ch 0x03) 0
            else
              cons (Z.land (Z.lor (Z.shiftl leftchar 6) this_ch) 0xFF)
                <$> a2b_base64 r 0 0 0
        end
  end.

(** [str.encode("ascii")], which [base64.b64decode] applies to a [str]
    argument; it turns the [UnicodeEncodeError] into a [ValueError]. *)
Fixpoint ascii_encode (s : pystr) : result pybytes :=
  match s with
  | [] => Ok []
  | c :: s' =>
      if c <? 0x80 then cons c <$> ascii_encode s'
      else Raise ValueError
  end.

Definition base64_b64encode (bs : pybytes) : pybytes := b64encode bs.

Definition base64_b64decode (s : pystr) : result pybytes :=
  bs ← ascii_encode s;
  a2b_base64 bs 0 0 0.

(** *** encoding.py *)

(** The argument of [safe_base64_encode] is a [Union[str, bytes]]. *)
Inductive str_or_bytes : Type :=
| Str (s : pystr)
| Bytes (b : pybytes).

(** [safe_base64_encode] (lines 15-26). *)
Definition safe_base64_encode (data : str_or_bytes) : result pystr :=
  data' ← match data with
            | Str s => utf8_encode s
            | Bytes b => Ok b
            end;
  utf8_decode (base64_b64encode data').

(** [safe_base64_decode] (lines 29-38). *)
Definition safe_base64_decode (data : pystr) : result pystr :=
  bs ← base64_b64decode data;
  utf8_decode bs.

(** A string literal as a Python [str]. *)
Definition lit (s : string) : pystr :=
  map (fun a => Z.of_nat (nat_of_ascii a)) (list_ascii_of_string s).

(** *** The vocabulary of the claims about the codec *)

(** The characters of the base64 alphabet carry data. *)
Definition is_data (c : Z) : bool :=
  match a2b c with
  | Some _ => true
  | None => false
  end.

(** The characters the decoder looks at: data characters and the pad. *)
Definition is_significant (c : Z) : bool := (c =? BASE64_PAD) || is_data c.

(** Valid base64 is what the encoder produces from some bytes; a malformed
    input is a string that is not valid base64, or whose decoded bytes are
    not UTF-8. *)
Definition valid_base64 (s : pystr) : Prop :=
  exists bs, Forall is_byte bs /\ s = b64encode bs.

Definition malformed (s : pystr) : Prop :=
  ~ valid_base64 s
  \/ exists bs, base64_b64decode s = Ok bs
               /\ utf8_decode bs = Raise UnicodeDecodeError.

(** The error contract of the specification: one dedicated exception, the
    [DecodeError], is the outcome of [safe_base64_decode] on every malformed
    input. *)
Definition rejects_with_DecodeError : Prop :=
  exists DecodeError : exn,
    forall s, malformed s -> safe_base64_decode s = Raise DecodeError.

(** *** Auxiliary notions of the proofs *)

(** Checking a boolean property of an integer on a whole initial segment. *)
Definition all_below (n : nat) (p : Z -> bool) : bool :=
  forallb p (map Z.of_nat (seq 0 n)).

(** The ASCII characters. *)
Definition is_ascii (c : Z) : Prop := 0 <= c < 0x80.

(** The four sextets of a group of three bytes, as the encoder computes
    them, and the three bytes the decoder rebuilds from them. *)
Definition sextet1 (x : Z) : Z := Z.shiftr x 2.
Definition sextet2 (x yh : Z) : Z := Z.lor (Z.shiftl (Z.land x 3) 4) yh.
Definition sextet3 (y zh : Z) : Z := Z.lor (Z.shiftl (Z.land y 0xF) 2) zh.
Definition sextet4 (z : Z) : Z := Z.land z 0x3F.

Definition octet1 (s1 s2 : Z) : Z :=
  Z.land (Z.lor (Z.shiftl s1 2) (Z.shiftr s2 4)) 0xFF.
Definition octet2 (s2 s3 : Z) : Z :=
  Z.land (Z.lor (Z.shiftl (Z.land s2 0x0F) 4) (Z.shiftr s3 2)) 0xFF.
Definition octet3 (s3 s4 : Z) : Z :=
  Z.land (Z.lor (Z.shiftl (Z.land s3 0x03) 6) s4) 0xFF.

Definition in_range (n v : Z) : bool := (0 <=? v) && (v <? n).

End Encoding.

(** ** Python numbers: [str], [int] and [*] *)

(** The amounts of the application are Python numbers.  The three built-ins
    the code applies to them are modelled after CPython: [str] of a float is
    its shortest [repr] ([float_repr_style] is ['short']), [int] truncates,
    and [*] is the binary64 product once an operand is a float. *)

Module PyNum.

(** [str(n)] of an [int]. *)
Definition str_int (z : Z) : string := NilZero.string_of_int (Z.to_int z).

(** Comparing [a * 10^p] with [b * 2^e], the exponents of either sign. *)
Definition scaled_compare (a p b e : Z) : comparison :=
  (a * 10 ^ Z.max p 0 * 2 ^ Z.max (- e) 0
   ?= b * 2 ^ Z.max e 0 * 10 ^ Z.max (- p) 0).

(** The decimal [d * 10^q] reads back as the double [m * 2^e] when it lies in
    the rounding interval of that double: half-way to the two neighbours, the
    ends included when [m] is even. *)
Definition rounds_to (m e d q : Z) : bool :=
  let boundary := (m =? 2 ^ 52) && (-1074 <? e) in
  let lower :=
    if boundary then scaled_compare d q (4 * m - 1) (e - 2)
    else scaled_compare d q (2 * m - 1) (e - 1) in
  let upper := scaled_compare d q (2 * m + 1) (e - 1) in
  match lower, upper with
  | Gt, Lt => true
  | Eq, Lt => Z.even m
  | Gt, Eq => Z.even m
  | _, _ => false
  end.

(** The shortest decimal [d * 10^q] that reads back as [m * 2^e], the nearest
    one when there are two: the digits that [repr] prints, searched from the
    coarsest unit [10^q] down. *)
Fixpoint shortest (fuel : nat) (m e q : Z) : Z * Z :=
  (* A double is itself a decimal with the unit [10^(-1074)]: the search
     ends there at the latest, fewer than 1400 steps below its start. *)
  match fuel with
  | O => (m, e)
  | S fuel' =>
      let d :=
        if 0 <=? q
        then Z.shiftl m e / 10 ^ q
        else (m * 10 ^ (- q)) / 2 ^ Z.max (- e) 0 * 2 ^ Z.max e 0 in
      let lo := (0 <? d) && rounds_to m e d q in
      let hi := rounds_to m e (d + 1) q in
      let closer_hi :=
        match scaled_compare (2 * d + 1) q (2 * m) e with
        | Lt => true
        | Eq => Z.odd d
        | Gt => false
        end in
      if lo && hi then (if closer_hi then (d + 1, q) else (d, q))
      else if lo then (d, q)
      else if hi then (d + 1, q)
      else shortest fuel' m e (q - 1)
  end.

Fixpoint zeros (n : nat) : string :=
  match n with
  | O => ""
  | S n' => "0" ++ zeros n'
  end.

(** The layout of [repr]: plain notation when the decimal point falls in
    [-4 < decpt <= 16], exponent notation otherwise. *)
Definition format_repr (d q : Z) : string :=
  let ds := str_int d in
  let n := Z.of_nat (String.length ds) in
  let decpt := n + q in
  if (-4 <? decpt) && (decpt <=? 16) then
    if decpt <=? 0 then "0." ++ zeros (Z.to_nat (- decpt)) ++ ds
    else if n <=? decpt then ds ++ zeros (Z.to_nat (decpt - n)) ++ ".0"
    else substring 0 (Z.to_nat decpt) ds ++ "."
         ++ substring (Z.to_nat decpt) (Z.to_nat (n - decpt)) ds
  else
    let ex := decpt - 1 in
    substring 0 1 ds
    ++ (if 1 <? n then "." ++ substring 1 (Z.to_nat (n - 1)) ds else "")
    ++ "e" ++ (if ex <? 0 then "-" else "+")
    ++ (if Z.abs ex <? 10 then "0" else "") ++ str_int (Z.abs ex).

(** [str(x)] of a [float], which is its [repr]. *)
Definition str_float (f : float) : string :=
  match Prim2SF f with
  | S754_zero s => if s then "-0.0" else "0.0"
  | S754_infinity s => if s then "-inf" else "inf"
  | S754_nan => "nan"
  | S754_finite s m e =>
      let q0 := (Z.log2 (Zpos m) + 1 + e) * 30103 / 100000 + 2 in
      let '(d, q) := shortest 1500 (Zpos m) e q0 in
      (if s then "-" else "") ++ format_repr d q
  end.

(** [str(x)] of a number. *)
Definition py_str (x : pynum) : string :=
  match x with
  | PyInt z => str_int z
  | PyFloat f => str_float f
  end.

(** [float(n)] of an [int]: the nearest double, [OverflowError] beyond the
    largest one. *)
Definition float_of_int (z : Z) : result float :=
  match binary_normalize prec emax z 0 false with
  | S754_infinity _ => Raise OverflowError
  | sf => Ok (SF2Prim sf)
  end.

(** [x * y]: exact on two [int]s, the binary64 product otherwise. *)
Definition py_mul (x y : pynum) : result pynum :=
  match x, y with
  | PyInt a, PyInt b => Ok (PyInt (a * b))
  | PyFloat f, PyInt b => g ← float_of_int b; Ok (PyFloat (f * g)%float)
  | PyInt a, PyFloat g => f ← float_of_int a; Ok (PyFloat (f * g)%float)
  | PyFloat f, PyFloat g => Ok (PyFloat (f * g)%float)
  end.

(** [int(x)]: truncation towards zero; [int] of a NaN or of an infinity
    raises. *)
Definition py_int (x : pynum) : result Z :=
  match x with
  | PyInt z => Ok z
  | PyFloat f =>
      match Prim2SF f with
      | S754_zero _ => Ok 0
      | S754_infinity _ => Raise OverflowError
      | S754_nan => Raise ValueError
      | S754_finite s m e =>
          let a := if 0 <=? e then Zpos m * 2 ^ e else Zpos m / 2 ^ (- e) in
          Ok (if s then - a else a)
      end
  end.

End PyNum.

(** ** Configuration: app/config.py *)

Module Config.

(** [Settings] (lines 15-40): the fields and, below, their defaults.  The
    environment may override every one of them. *)
Record Settings : Type := mkSettings {
  x402_enabled : bool;
  x402_recipient_address : string;
  x402_network : string;
  x402_token : string;
  x402_facilitator_url : string;
  model_path : string;
  model_version : string;
  cache_enabled : bool;
  cache_ttl : Z;
  debug : bool
}.

Definition default_settings : Settings := {|
  x402_enabled := true;
  x402_recipient_address := "0x0000000000000000000000000000000000000000";
  x402_network := "base";
  x402_token := "USDC";
  x402_facilitator_url := "https://facilitator.x402.org";
  model_path := "./models";
  model_version := "v1.2.0";
  cache_enabled := true;
  cache_ttl := 300;
  debug := false
|}.

End Config.

(** ** The objects an endpoint receives *)

Module Objects.

(** A [starlette] request, as far as the code looks at it: [headers.get] as a
    function from a header name to its value, and the URL as [str] prints
    it. *)
Record Request : Type := mkRequest {
  headers_get : string -> option string;
  url : string
}.

(** The enumerations and request bodies of app/main.py (lines 49-87). *)
Inductive SupportedAsset : Type :=
| BTC | ETH | SOL | ARB | AVAX | MATIC | LINK | UNI | AAVE | OP.

Inductive Timeframe : Type := H1 | H4 | D1 | W1.

Inductive Strategy : Type :=
| MOMENTUM | MEAN_REVERSION | TREND_FOLLOWING | CUSTOM.

Record PredictionRequest : Type := mkPredictionRequest {
  asset : SupportedAsset;
  timeframe : Timeframe
}.

Record BulkPredictionRequest : Type := mkBulkPredictionRequest {
  assets : list SupportedAsset;
  bulk_timeframe : Timeframe;
  type : string
}.

Record BacktestRequest : Type := mkBacktestRequest {
  backtest_asset : SupportedAsset;
  strategy : Strategy;
  start_date : string;
  end_date : string;
  parameters : option (gmap string pynum)
}.

(** The values that reach an endpoint as arguments: the HTTP request, or a
    validated [pydantic] body. *)
Inductive pyobj : Type :=
| ObjRequest (r : Request)
| ObjPredictionRequest (b : PredictionRequest)
| ObjBacktestRequest (b : BacktestRequest).

(** [isinstance(arg, Request)]. *)
Definition isinstance_Request (o : pyobj) : bool :=
  match o with
  | ObjRequest _ => true
  | _ => false
  end.

(** [bool(o)]: a [Request] is a mapping over its non-empty scope, a
    [BaseModel] defines neither [__bool__] nor [__len__]; both are true. *)
Definition py_bool_obj (o : pyobj) : bool :=
  match o with
  | ObjRequest _ => true
  | ObjPredictionRequest _ => true
  | ObjBacktestRequest _ => true
  end.

(** [o.headers]: only a [Request] has the attribute. *)
Definition getattr_headers (o : pyobj) : result (string -> option string) :=
  match o with
  | ObjRequest r => Ok (headers_get r)
  | _ => Raise (AttributeError "headers")
  end.

(** [bool(s)] of a [str], and of an [Optional[str]]. *)
Definition py_bool_str (s : string) : bool :=
  match s with
  | EmptyString => false
  | String _ _ => true
  end.

Definition py_bool_opt (o : option string) : bool :=
  match o with
  | Some s => py_bool_str s
  | None => false
  end.

(** [a or b] on an [Optional[str]] and a [str]. *)
Definition py_or (a : option string) (b : string) : string :=
  match a with
  | Some s => if py_bool_str s then s else b
  | None => b
  end.

End Objects.

(** ** The paywall: app/middleware/x402.py *)

Module X402.
Import Config Objects PyNum.

Section Middleware.

(** The module-level [settings] object, which the functions read. *)
Variable settings : Settings.

(** [X402PaymentRequired.__init__] (lines 18-31). *)
Definition X402PaymentRequired_init (amount : pynum) (description : string)
    (network recipient token : option string) : X402PaymentRequired := {|
  exc_amount := amount;
  exc_description := description;
  exc_network := py_or network (x402_network settings);
  exc_recipient := py_or recipient (x402_recipient_address settings);
  exc_token := py_or token (x402_token settings)
|}.

(** [try: body except Exception: handler]. *)
Definition try_except {A} (body : result A) (handler : result A) : result A :=
  match body with
  | Ok a => Ok a
  | Raise _ => handler
  end.

(** [_validate_payment_proof] (lines 99-139). *)
Definition _validate_payment_proof (proof : string) (expected_amount : pynum)
  : result bool :=
  if negb (py_bool_str proof) then Ok false
  else if debug settings || negb (x402_enabled settings) then Ok true
  else
    try_except
      (if String.prefix "0x" proof && (String.length proof =? 66)%nat then Ok true
       else if (20 <? String.length proof)%nat then Ok true
       else Ok false)
      (Ok false).

(** [_get_chain_id] (lines 169-179). *)
Definition chain_ids : gmap string Z :=
  <["base" := 8453]> (<["base-sepolia" := 84532]> (<["ethereum" := 1]>
  (<["arbitrum" := 42161]> (<["optimism" := 10]> (<["polygon" := 137]> ∅))))).

Definition _get_chain_id (network : string) : Z :=
  default 8453 (chain_ids !! network).

(** [_get_token_address] (lines 182-192). *)
Definition usdc_addresses : gmap string string :=
  <["base" := "0x833589fCD6eDb6E08f4c7C32D4f71b54bdA02913"]>
  (<["ethereum" := "0xA0b86991c6218b36c1d19D4a2e9Eb0cE3606eB48"]>
  (<["arbitrum" := "0xaf88d065e77c8cC2239327C5EDb3A432268e5831"]>
  (<["optimism" := "0x0b2C639c533813f4Aa9D7837CAf62653d097Ff85"]>
  (<["polygon" := "0x3c499c542cEF5E3811e1192ce70d8cC03d5c3359"]> ∅)))).

Definition _get_token_address : string :=
  default (usdc_addresses !!! "base") (usdc_addresses !! x402_network settings).

(** One entry of ["accepts"] ([asset_id] is its key ["asset"]), and the
    payment request around it. *)
Record AcceptsEntry : Type := mkAcceptsEntry {
  scheme : string;
  network : string;
  maxAmountRequired : string;
  resource : string;
  description : string;
  mimeType : string;
  payTo : string;
  maxTimeoutSeconds : Z;
  asset_id : string
}.

Record PaymentRequest : Type := mkPaymentRequest {
  x402_version : Z;
  accepts : list AcceptsEntry
}.

(** [generate_payment_request] (lines 142-166). *)
Definition generate_payment_request (amount : pynum) (resource : string)
    (description : string) (validity_seconds : Z) : result PaymentRequest :=
  scaled ← py_mul amount (PyInt 1000000);
  units ← py_int scaled;
  let chain := "eip155:" +:+ str_int (_get_chain_id (x402_network settings)) in
  Ok {|
    x402_version := 1;
    accepts := [ {|
      scheme := "exact";
      network := chain;
      maxAmountRequired := str_int units;
      resource := resource;
      description := description;
      mimeType := "application/json";
      payTo := x402_recipient_address settings;
      maxTimeoutSeconds := validity_seconds;
      asset_id := chain +:+ "/erc20:" +:+ _get_token_address
    |} ]
  |}.

(** *** The decorator *)

(** The protected operation works on a world [W] of its own and returns a
    [Res] or raises.  The gate is run on a state that holds this world and a
    trace of the two calls the wrapper makes: to the validator and to the
    protected operation. *)
Context {W Res : Type}.

Definition Endpoint : Type :=
  list pyobj -> gmap string pyobj -> W -> result Res * W.

Inductive event : Type :=
| EvValidate (proof : string) (expected_amount : pynum)
| EvInvoke (args : list pyobj) (kwargs : gmap string pyobj).

Record state : Type := mkState {
  world : W;
  trace : list event
}.

Definition M (A : Type) : Type := state -> result A * state.

#[global] Instance M_ret : MRet M := fun _ a st => (Ok a, st).
#[global] Instance M_bind : MBind M := fun _ _ k m st =>
  match m st with
  | (Ok a, st') => k a st'
  | (Raise e, st') => (Raise e, st')
  end.

Definition raise {A} (e : exn) : M A := fun st => (Raise e, st).
Definition lift {A} (r : result A) : M A := fun st => (r, st).
Definition log (ev : event) : M unit :=
  fun st => (Ok tt, {| world := world st; trace := trace st ++ [ev] |}).

(** [await func] on the arguments the wrapper received. *)
Definition run (func : Endpoint) (args : list pyobj) (kwargs : gmap string pyobj)
  : M Res :=
  fun st =>
    let '(r, w) := func args kwargs (world st) in
    (r, {| world := w; trace := trace st |}).

Definition call (func : Endpoint) (args : list pyobj) (kwargs : gmap string pyobj)
  : M Res :=
  _ ← log (EvInvoke args kwargs);
  run func args kwargs.

(** The call of [_validate_payment_proof] from the wrapper. *)
Definition validate (proof : string) (amount : pynum) : M bool :=
  _ ← log (EvValidate proof amount);
  lift (_validate_payment_proof proof amount).

(** Lines 54-61: the first [Request] among the positional arguments,
    otherwise whatever the keyword [request] holds. *)
Definition find_request (args : list pyobj) (kwargs : gmap string pyobj)
  : option pyobj :=
  match List.find isinstance_Request args with
  | Some r => Some r
  | None => kwargs !! "request"
  end.

(** Lines 67-72: the proof from the headers of the request. *)
Definition read_payment_proof (request : option pyobj) : result (option string) :=
  match request with
  | Some r =>
      if py_bool_obj r then
        hs ← getattr_headers r;
        let payment_proof := hs "X-402-Payment" in
        if negb (py_bool_opt payment_proof) then Ok (hs "x-402-payment")
        else Ok payment_proof
      else Ok None
  | None => Ok None
  end.

(** [x402_paywall(amount, description, network, recipient, token)(func)]
    (lines 34-96): the [wrapper] that replaces [func]. *)
Definition wrapper (amount : pynum) (description : string)
    (network recipient token : option string) (func : Endpoint)
    (args : list pyobj) (kwargs : gmap string pyobj) : M Res :=
  let request := find_request args kwargs in
  if negb (x402_enabled settings) then call func args kwargs
  else
    payment_proof ← lift (read_payment_proof request);
    match payment_proof with
    | Some proof =>
        if negb (py_bool_str proof) then
          raise (ExnX402PaymentRequired
                   (X402PaymentRequired_init amount description
                      network recipient token))
        else
          valid ← validate proof amount;
          if negb valid then raise (HTTPException 402 "Invalid payment proof")
          else call func args kwargs
    | None =>
        raise (ExnX402PaymentRequired
                 (X402PaymentRequired_init amount description
                    network recipient token))
    end.

(** The decorator factory and the decorator it returns only pass their
    arguments on to the wrapper. *)
Definition x402_paywall := wrapper.

(** The number of calls of the protected operation in a trace. *)
Definition is_invoke (ev : event) : bool :=
  match ev with
  | EvInvoke _ _ => true
  | EvValidate _ _ => false
  end.

Definition invocations (st : state) : nat :=
  List.length (List.filter is_invoke (trace st)).

Definition is_validate (ev : event) : bool :=
  match ev with
  | EvValidate _ _ => true
  | EvInvoke _ _ => false
  end.

Definition validations (st : state) : nat :=
  List.length (List.filter is_validate (trace st)).

(** The same request served [n] times in a row. *)
Fixpoint replay {A} (n : nat) (m : M A) (st : state) : state :=
  match n with
  | O => st
  | S n' => replay n' m (snd (m st))
  end.

End Middleware.

(** *** The vocabulary of the claims about the gate *)

(** At-most-one delivery: once a request has been served, the same request
    presented again does not invoke the protected operation again. *)
Definition delivers_at_most_once : Prop :=
  forall (settings : Settings) (W Res : Type) (amount : pynum)
         (description : string) (network recipient token : option string)
         (func : @Endpoint W Res) (args : list pyobj)
         (kwargs : gmap string pyobj) (st st1 st2 : @state W)
         (r1 : Res) (r2 : result Res),
    wrapper settings amount description network recipient token func
      args kwargs st = (Ok r1, st1) ->
    wrapper settings amount description network recipient token func
      args kwargs st1 = (r2, st2) ->
    invocations st2 = invocations st1.

(** The structural amount check: whatever amount [declared] reads in a
    proof, a proof that declares less than the expected amount is refused. *)
Definition checks_declared_amount (declared : string -> Z) : Prop :=
  forall (settings : Settings) (proof : string) (expected_amount : Z),
    declared proof < expected_amount ->
    _validate_payment_proof settings proof (PyInt expected_amount) = Ok false.

(** A request without a payment proof: no request object was found, or the
    one found is a [Request] whose headers hold no proof under either
    spelling of the name. *)
Definition carries_no_proof (request : option pyobj) : Prop :=
  match request with
  | None => True
  | Some (ObjRequest r) =>
      py_bool_opt (headers_get r "X-402-Payment") = false
      /\ py_bool_opt (headers_get r "x-402-payment") = false
  | Some _ => False
  end.

(** A request that presents [proof]: the request object found is a
    [Request] whose headers hold the non-empty [proof]. *)
Definition presents (request : option pyobj) (proof : string) : Prop :=
  py_bool_str proof = true
  /\ match request with
     | Some (ObjRequest r) =>
         headers_get r "X-402-Payment" = Some proof
         \/ (py_bool_opt (headers_get r "X-402-Payment") = false
             /\ headers_get r "x-402-payment" = Some proof)
     | _ => False
     end.

(** The network names of the chain table. *)
Definition known_networks : list string :=
  ["base"; "base-sepolia"; "ethereum"; "arbitrum"; "optimism"; "polygon"].

(** An amount held as an integer. *)
Definition is_int (x : pynum) : Prop :=
  match x with
  | PyInt _ => True
  | PyFloat _ => False
  end.

End X402.

(** ** The application: app/main.py *)

Module Main.
Import Config Objects PyNum X402.

#[global] Instance pynum_inhabited : Inhabited pynum := populate (PyInt 0).

(** [PRICING] (lines 93-101). *)
Definition PRICING : gmap string pynum :=
  <["direction" := PyFloat 0.01]> (<["target" := PyFloat 0.05]>
  (<["confidence" := PyFloat 0.02]> (<["full" := PyFloat 0.10]>
  (<["bulk_per_asset" := PyFloat 0.01]> (<["backtest" := PyFloat 0.50]>
  (<["maas_monthly" := PyFloat 10.00]> ∅)))))).

(** The content of the 402 response and the response itself. *)
Record PaymentRequiredContent : Type := mkPaymentRequiredContent {
  error : string;
  content_x402_version : Z;
  content_accepts : list AcceptsEntry
}.

Record JSONResponse : Type := mkJSONResponse {
  status_code : Z;
  content : PaymentRequiredContent;
  response_headers : list (string * string)
}.

(** [payment_required_handler] (lines 107-131). *)
Definition payment_required_handler (request : Request)
    (exc : X402PaymentRequired) : JSONResponse := {|
  status_code := 402;
  content := {|
    error := "Payment Required";
    content_x402_version := 1;
    content_accepts := [ {|
      scheme := "exact";
      network := exc_network exc;
      maxAmountRequired := py_str (exc_amount exc);
      resource := url request;
      description := exc_description exc;
      mimeType := "application/json";
      payTo := exc_recipient exc;
      maxTimeoutSeconds := 300;
      asset_id := exc_token exc
    |} ]
  |};
  response_headers :=
    [("X-402-Version", "1"); ("X-402-Price", py_str (exc_amount exc))]
|}.

Section App.

Variable settings : Settings.
Context {W Res : Type}.

(** What the framework sends back for the outcome of an endpoint: the
    result, the response of the handler registered for
    [X402PaymentRequired] (line 107), the status and detail of an
    [HTTPException], and an internal server error for any other exception. *)
Inductive Response : Type :=
| Success (r : Res)
| PaymentRequired (r : JSONResponse)
| HTTPError (status : Z) (detail : string)
| InternalServerError (e : exn).

Definition respond (request : Request) (r : result Res) : Response :=
  match r with
  | Ok v => Success v
  | Raise (ExnX402PaymentRequired exc) =>
      PaymentRequired (payment_required_handler request exc)
  | Raise (HTTPException status detail) => HTTPError status detail
  | Raise e => InternalServerError e
  end.

(** The paid endpoints (lines 192-266 and 313-333): each is the wrapper of
    [x402_paywall] around a body that calls the predictor.  The bodies are
    the protected operations; they are parameters here. *)
Variable predict_direction_body : @Endpoint W Res.
Variable run_backtest_body : @Endpoint W Res.

Definition predict_direction : list pyobj -> gmap string pyobj -> M Res :=
  x402_paywall settings (PRICING !!! "direction") "Price direction prediction"
    None None None predict_direction_body.

Definition run_backtest : list pyobj -> gmap string pyobj -> M Res :=
  x402_paywall settings (PRICING !!! "backtest") "Strategy backtesting"
    None None None run_backtest_body.

(** A request to [POST /predict/direction].  The framework calls the endpoint
    with keyword arguments named after the parameters of its signature, and
    [functools.wraps] gives the wrapper the signature of the function it
    wraps: [(request: PredictionRequest)].  The wrapper therefore receives
    the validated body under the keyword [request]. *)
Definition post_predict_direction (http : Request) (body : PredictionRequest)
  : @state W -> Response * @state W :=
  fun st =>
    let '(r, st') :=
      predict_direction [] {["request" := ObjPredictionRequest body]} st in
    (respond http r, st').

(** [predict_bulk] (lines 268-311) checks the header itself; the
    predictions that follow the check (lines 284-311) are a parameter. *)
Variable predict_bulk_body :
  BulkPredictionRequest -> pynum -> W -> result Res * W.

Definition predict_bulk (request : BulkPredictionRequest) (req : Request)
  : @M W Res :=
  let n := Z.of_nat (List.length (assets request)) in
  total_cost ← lift (py_mul (PRICING !!! "bulk_per_asset") (PyInt n));
  let payment_proof := headers_get req "X-402-Payment" in
  if negb (py_bool_opt payment_proof) && x402_enabled settings then
    raise (ExnX402PaymentRequired
             (X402PaymentRequired_init settings total_cost
                ("Bulk prediction for " +:+ str_int n +:+ " assets")
                None None None))
  else
    (fun st =>
       let '(r, w) := predict_bulk_body request total_cost (world st) in
       (r, {| world := w; trace := trace st |})) : M Res.

Definition post_predict_bulk (http : Request) (body : BulkPredictionRequest)
  : @state W -> Response * @state W :=
  fun st =>
    let '(r, st') := predict_bulk body http st in
    (respond http r, st').

End App.

(** *** The vocabulary of the claims about the application *)

(** Integer amounts, on the requirement that a client can obtain: the
    requirement with which [POST /predict/bulk] answers a validated body
    sent without a payment header holds its amount as an integer. *)
Definition amounts_are_integers : Prop :=
  forall (settings : Settings) (W Res : Type)
         (body : BulkPredictionRequest -> pynum -> W -> result Res * W)
         (request : BulkPredictionRequest) (req : Request)
         (st st' : @state W) (exc : X402PaymentRequired),
    x402_enabled settings = true ->
    py_bool_opt (headers_get req "X-402-Payment") = false ->
    (1 <= List.length (assets request) <= 10)%nat ->
    predict_bulk settings body request req st
      = (Raise (ExnX402PaymentRequired exc), st') ->
    is_int (exc_amount exc).

(** The requests of the scenarios: one without headers, one that presents a
    transaction hash as its proof. *)
Definition bare_request : Request := {|
  headers_get := fun _ => None;
  url := "http://testserver/predict/direction"
|}.

Definition tx_hash : string :=
  "0xaaaaaaaaaaaaaaaaaaaaaaaaaaaaaaaaaaaaaaaaaaaaaaaaaaaaaaaaaaaaaaaa".

Definition paying_request : Request := {|
  headers_get := fun name =>
    if String.eqb name "X-402-Payment" then Some tx_hash else None;
  url := "http://testserver/predict/direction"
|}.

(** The keyword arguments with which the framework hands an endpoint the
    HTTP request, when the endpoint declares a parameter [request: Request]. *)
Definition keyword (r : Request) : gmap string pyobj :=
  {["request" := ObjRequest r]}.

(** A protected operation that counts its calls in its world. *)
Definition counting_operation : @Endpoint nat nat :=
  fun _ _ calls => (Ok calls, S calls).

End Main.

(** ** Amounts in smallest units *)

Module Amounts.
Import PyNum.

(** The price of [c] cents as a [float]: the double nearest to [c / 100],
    which is what the decimal literal with two places denotes and what
    [c / 100] evaluates to. *)
Definition cents (c : Z) : pynum :=
  PyFloat (SF2Prim (binary_normalize prec emax c 0 false) / 100)%float.

(** The conversion of line 158 of x402.py: [int(amount * 1_000_000)]. *)
Definition smallest_units (amount : pynum) : result Z :=
  scaled ← py_mul amount (PyInt 1000000);
  py_int scaled.

End Amounts.

(** ** The other routes of app/main.py *)

Module Routes.
Import Config Objects PyNum X402 Main.

(** [e.value] for the members of the enumerations (lines 49-65), and the
    members in the order of their definition, which is the order of
    iteration over the class. *)
Definition SupportedAsset_value (a : SupportedAsset) : string :=
  match a with
  | BTC => "BTC" | ETH => "ETH" | SOL => "SOL" | ARB => "ARB"
  | AVAX => "AVAX" | MATIC => "MATIC" | LINK => "LINK" | UNI => "UNI"
  | AAVE => "AAVE" | OP => "OP"
  end.

Definition Timeframe_value (t : Timeframe) : string :=
  match t with
  | H1 => "1h" | H4 => "4h" | D1 => "1d" | W1 => "1w"
  end.

Definition SupportedAsset_members : list SupportedAsset :=
  [BTC; ETH; SOL; ARB; AVAX; MATIC; LINK; UNI; AAVE; OP].

Definition Timeframe_members : list Timeframe := [H1; H4; D1; W1].

(** [get_assets] (lines 167-173): the keys ["supported_assets"] and
    ["timeframes"] of the answer. *)
Definition get_assets : list string * list string :=
  (List.map SupportedAsset_value SupportedAsset_members,
   List.map Timeframe_value Timeframe_members).

Section Paid.

Variable settings : Settings.
Context {W Res : Type}.

(** The bodies of the five decorated endpoints are the protected
    operations. *)
Variable predict_direction_body : @Endpoint W Res.
Variable predict_target_body : @Endpoint W Res.
Variable predict_confidence_body : @Endpoint W Res.
Variable predict_full_body : @Endpoint W Res.
Variable run_backtest_body : @Endpoint W Res.

(** Lines 211-266. *)
Definition predict_target : list pyobj -> gmap string pyobj -> M Res :=
  x402_paywall settings (PRICING !!! "target") "Price target prediction"
    None None None predict_target_body.

Definition predict_confidence : list pyobj -> gmap string pyobj -> M Res :=
  x402_paywall settings (PRICING !!! "confidence") "Model confidence score"
    None None None predict_confidence_body.

Definition predict_full : list pyobj -> gmap string pyobj -> M Res :=
  x402_paywall settings (PRICING !!! "full") "Full prediction report"
    None None None predict_full_body.

(** The decorated endpoints of the application, in the order of the file. *)
Definition paid_endpoints : list (list pyobj -> gmap string pyobj -> M Res) :=
  [ predict_direction settings predict_direction_body;
    predict_target;
    predict_confidence;
    predict_full;
    run_backtest settings run_backtest_body ].

End Paid.

End Routes.

(** ** The predictor: app/models/lstm.py *)

Module Lstm.
Import Objects.

(** A [dict] literal with its order of insertion, and [d.get(key)]. *)
Fixpoint dict_get {V : Type} (d : list (string * V)) (key : string)
  : option V :=
  match d with
  | [] => None
  | (k, v) :: d' => if String.eqb k key then Some v else dict_get d' key
  end.

(** [self.base_prices] and [self.timeframe_multipliers] (lines 32-51). *)
Definition base_prices : list (string * pynum) :=
  [ ("BTC", PyInt 95000); ("ETH", PyInt 3200); ("SOL", PyInt 180);
    ("ARB", PyFloat 1.20); ("AVAX", PyInt 35); ("MATIC", PyFloat 0.80);
    ("LINK", PyInt 18); ("UNI", PyInt 12); ("AAVE", PyInt 280);
    ("OP", PyFloat 2.50) ].

Definition timeframe_multipliers : list (string * float) :=
  [ ("1h", 0.01%float); ("4h", 0.025%float); ("1d", 0.05%float);
    ("1w", 0.15%float) ].

(** Line 60: [self.base_prices.get(asset, 100)], and line 95:
    [self.timeframe_multipliers.get(timeframe, 0.05)]. *)
Definition base_price (asset : string) : pynum :=
  default (PyInt 100) (dict_get base_prices asset).

Definition max_change (timeframe : string) : float :=
  default 0.05%float (dict_get timeframe_multipliers timeframe).

(** The key ["supported_assets"] of [get_model_info] (line 359):
    [list(self.base_prices.keys())]. *)
Definition get_model_info_supported_assets : list string :=
  List.map fst base_prices.

(** Lines 81-92 of [_simulate_prediction]: the score of the three
    indicators and the direction it gives. *)
Definition bullish_score (rsi macd macd_signal ema_short ema_long : float) : Z :=
  (if (rsi <? 50)%float then 1 else -1)
  + (if (macd_signal <? macd)%float then 1 else -1)
  + (if (ema_long <? ema_short)%float then 1 else -1).

Definition direction (score : Z) : string :=
  if 1 <? score then "bullish"
  else if score <? -1 then "bearish"
  else "sideways".

End Lstm.

(** ** The networks of the legacy client: x402/networks.py *)

Module Networks.

(** [EVM_NETWORK_TO_CHAIN_ID] (lines 16-21). *)
Definition EVM_NETWORK_TO_CHAIN_ID : gmap string Z :=
  <["base-sepolia" := 84532]> (<["base" := 8453]>
  (<["avalanche-fuji" := 43113]> (<["avalanche" := 43114]> ∅))).

End Networks.
(** ** Facts about the codec *)

Import Encoding.

(** The codec on a few inputs. *)
Example safe_base64_encode_hello :
  safe_base64_encode (Str (lit "hello world")) = Ok (lit "aGVsbG8gd29ybGQ=").
Proof. reflexivity. Qed.

Example safe_base64_decode_hello :
  safe_base64_decode (lit "aGVsbG8gd29ybGQ=") = Ok (lit "hello world").
Proof. reflexivity. Qed.

Example safe_base64_encode_euro :
  safe_base64_encode (Str [0x20AC]) = Ok (lit "4oKs").
Proof. reflexivity. Qed.

Example safe_base64_decode_truncated :
  safe_base64_decode (lit "aGVsbG8gd29ybGQ") = Raise BinasciiError.
Proof. reflexivity. Qed.

Example safe_base64_decode_not_utf8 :
  safe_base64_decode (lit "/w==") = Raise UnicodeDecodeError.
Proof. reflexivity. Qed.

Example safe_base64_decode_garbage :
  safe_base64_decode (lit "!!!!") = Ok [].
Proof. reflexivity. Qed.

Lemma all_below_spec (n : nat) (p : Z -> bool) :
  all_below n p = true -> forall v, 0 <= v < Z.of_nat n -> p v = true.
Proof.
  unfold all_below. rewrite forallb_forall. intros H v Hv.
  apply H. apply in_map_iff. exists (Z.to_nat v). split; [lia|].
  apply in_seq. lia.
Qed.

Lemma all_below2_spec (n m : nat) (p : Z -> Z -> bool) :
  all_below n (fun a => all_below m (p a)) = true ->
  forall a b, 0 <= a < Z.of_nat n -> 0 <= b < Z.of_nat m -> p a b = true.
Proof.
  intros H a b Ha Hb.
  pose proof (all_below_spec n _ H a Ha) as H1. cbv beta in H1.
  exact (all_below_spec m _ H1 b Hb).
Qed.

Lemma all_below3_spec (n m k : nat) (p : Z -> Z -> Z -> bool) :
  all_below n (fun a => all_below m (fun b => all_below k (p a b))) = true ->
  forall a b c, 0 <= a < Z.of_nat n -> 0 <= b < Z.of_nat m ->
                0 <= c < Z.of_nat k -> p a b c = true.
Proof.
  intros H a b c Ha Hb Hc.
  pose proof (all_below2_spec n m _ H a b Ha Hb) as H1. cbv beta in H1.
  exact (all_below_spec k _ H1 c Hc).
Qed.

(** Linear arithmetic with quotients and remainders by constants. *)
Ltac dlia := Z.to_euclidean_division_equations; lia.

(** Shifts and masks by constants, as quotients and remainders. *)
Lemma shiftr_range (x : Z) (n w : Z) :
  0 <= n -> 0 <= w -> 0 <= x < 2 ^ (n + w) -> 0 <= Z.shiftr x n < 2 ^ w.
Proof.
  intros Hn Hw Hx. rewrite Z.shiftr_div_pow2 by lia.
  rewrite Z.pow_add_r in Hx by lia.
  assert (0 < 2 ^ n) by (apply Z.pow_pos_nonneg; lia).
  split.
  - apply Z.div_pos; lia.
  - apply Z.div_lt_upper_bound; lia.
Qed.

Lemma land_ones_range (x n : Z) : 0 <= n -> 0 <= Z.land x (Z.ones n) < 2 ^ n.
Proof.
  intros Hn. rewrite Z.land_ones by lia. apply Z.mod_pos_bound.
  apply Z.pow_pos_nonneg; lia.
Qed.

Lemma lor_shiftl_add (hi lo n : Z) :
  0 <= n -> 0 <= lo < 2 ^ n -> Z.lor (Z.shiftl hi n) lo = hi * 2 ^ n + lo.
Proof.
  intros Hn Hlo. rewrite Z.shiftl_mul_pow2 by lia.
  rewrite <- Z.add_lor_land.
  replace (Z.land (hi * 2 ^ n) lo) with 0; [lia|].
  symmetry. apply Z.bits_inj'. intros i Hi.
  rewrite Z.land_spec, Z.bits_0.
  destruct (Z.ltb_spec i n) as [Hlt|Hge].
  - rewrite Z.mul_pow2_bits_low by lia. reflexivity.
  - rewrite <- (Z.mod_small lo (2 ^ n)) by lia.
    rewrite Z.mod_pow2_bits_high by lia. apply andb_false_r.
Qed.

(** UTF-8: continuation bytes and lead bytes. *)
Lemma cont_spec (x : Z) :
  is_cont (cont x) = true /\ payload (cont x) = x mod 64
  /\ (cont x <? 0x80) = false /\ is_byte (cont x).
Proof.
  unfold cont. change 0x3F with (Z.ones 6).
  pose proof (land_ones_range x 6 ltac:(lia)) as Hr.
  replace (x mod 64) with (Z.land x (Z.ones 6))
    by (rewrite Z.land_ones by lia; reflexivity).
  set (l := Z.land x (Z.ones 6)) in *. clearbody l. change (2 ^ 6) with 64 in Hr.
  pose proof (all_below_spec 64
    (fun l => is_cont (Z.lor 0x80 l) && (payload (Z.lor 0x80 l) =? l)
              && negb (Z.lor 0x80 l <? 0x80)
              && (0 <=? Z.lor 0x80 l) && (Z.lor 0x80 l <? 256))
    ltac:(vm_compute; reflexivity) l Hr) as H.
  cbv beta in H. rewrite !andb_true_iff, negb_true_iff in H.
  destruct H as ((((H1 & H2) & H3) & H4) & H5).
  unfold is_byte. repeat split; auto; lia.
Qed.

Lemma lead2_spec (h : Z) :
  0 <= h < 32 ->
  0xC0 <= Z.lor 0xC0 h < 0xE0 /\ Z.land (Z.lor 0xC0 h) 0x1F = h.
Proof.
  intros Hh.
  pose proof (all_below_spec 32
    (fun h => (0xC0 <=? Z.lor 0xC0 h) && (Z.lor 0xC0 h <? 0xE0)
              && (Z.land (Z.lor 0xC0 h) 0x1F =? h))
    ltac:(vm_compute; reflexivity) h Hh) as H.
  cbv beta in H. rewrite !andb_true_iff in H. lia.
Qed.

Lemma lead3_spec (h : Z) :
  0 <= h < 16 ->
  0xE0 <= Z.lor 0xE0 h < 0xF0 /\ Z.land (Z.lor 0xE0 h) 0x0F = h.
Proof.
  intros Hh.
  pose proof (all_below_spec 16
    (fun h => (0xE0 <=? Z.lor 0xE0 h) && (Z.lor 0xE0 h <? 0xF0)
              && (Z.land (Z.lor 0xE0 h) 0x0F =? h))
    ltac:(vm_compute; reflexivity) h Hh) as H.
  cbv beta in H. rewrite !andb_true_iff in H. lia.
Qed.

Lemma lead4_spec (h : Z) :
  0 <= h < 8 ->
  0xF0 <= Z.lor 0xF0 h < 0xF8 /\ Z.land (Z.lor 0xF0 h) 0x07 = h.
Proof.
  intros Hh.
  pose proof (all_below_spec 8
    (fun h => (0xF0 <=? Z.lor 0xF0 h) && (Z.lor 0xF0 h <? 0xF8)
              && (Z.land (Z.lor 0xF0 h) 0x07 =? h))
    ltac:(vm_compute; reflexivity) h Hh) as H.
  cbv beta in H. rewrite !andb_true_iff in H. lia.
Qed.

Ltac leb_true := 
  match goal with
  | |- context [?a <=? ?b] =>
      replace (a <=? b) with true by (symmetry; apply Z.leb_le; lia)
  end.

(** The decoder, one lead byte at a time. *)
Lemma utf8_decode_1 (b0 : Z) (r : pybytes) :
  b0 < 0x80 -> utf8_decode (b0 :: r) = cons b0 <$> utf8_decode r.
Proof.
  intros H. assert (E : (b0 <? 0x80) = true) by (apply Z.ltb_lt; lia).
  cbn [utf8_decode]. rewrite E. reflexivity.
Qed.

Lemma utf8_decode_2 (b0 b1 : Z) (r : pybytes) :
  0xC0 <= b0 < 0xE0 ->
  utf8_decode (b0 :: b1 :: r) =
    let c := Z.lor (Z.shiftl (Z.land b0 0x1F) 6) (payload b1) in
    if is_cont b1 && (0x80 <=? c) then cons c <$> utf8_decode r
    else Raise UnicodeDecodeError.
Proof.
  intros H.
  assert (E1 : (b0 <? 0x80) = false) by (apply Z.ltb_ge; lia).
  assert (E2 : (b0 <? 0xC0) = false) by (apply Z.ltb_ge; lia).
  assert (E3 : (b0 <? 0xE0) = true) by (apply Z.ltb_lt; lia).
  cbn [utf8_decode]. rewrite E1, E2, E3. reflexivity.
Qed.

Lemma utf8_decode_3 (b0 b1 b2 : Z) (r : pybytes) :
  0xE0 <= b0 < 0xF0 ->
  utf8_decode (b0 :: b1 :: b2 :: r) =
    let c := Z.lor (Z.shiftl (Z.land b0 0x0F) 12)
               (Z.lor (Z.shiftl (payload b1) 6) (payload b2)) in
    if is_cont b1 && is_cont b2 && (0x800 <=? c) && negb (is_surrogate c)
    then cons c <$> utf8_decode r
    else Raise UnicodeDecodeError.
Proof.
  intros H.
  assert (E1 : (b0 <? 0x80) = false) by (apply Z.ltb_ge; lia).
  assert (E2 : (b0 <? 0xC0) = false) by (apply Z.ltb_ge; lia).
  assert (E3 : (b0 <? 0xE0) = false) by (apply Z.ltb_ge; lia).
  assert (E4 : (b0 <? 0xF0) = true) by (apply Z.ltb_lt; lia).
  cbn [utf8_decode]. rewrite E1, E2, E3, E4. reflexivity.
Qed.

Lemma utf8_decode_4 (b0 b1 b2 b3 : Z) (r : pybytes) :
  0xF0 <= b0 < 0xF8 ->
  utf8_decode (b0 :: b1 :: b2 :: b3 :: r) =
    let c := Z.lor (Z.shiftl (Z.land b0 0x07) 18)
               (Z.lor (Z.shiftl (payload b1) 12)
                  (Z.lor (Z.shiftl (payload b2) 6) (payload b3))) in
    if is_cont b1 && is_cont b2 && is_cont b3
       && (0x10000 <=? c) && (c <=? 0x10FFFF)
    then cons c <$> utf8_decode r
    else Raise UnicodeDecodeError.
Proof.
  intros H.
  assert (E1 : (b0 <? 0x80) = false) by (apply Z.ltb_ge; lia).
  assert (E2 : (b0 <? 0xC0) = false) by (apply Z.ltb_ge; lia).
  assert (E3 : (b0 <? 0xE0) = false) by (apply Z.ltb_ge; lia).
  assert (E4 : (b0 <? 0xF0) = false) by (apply Z.ltb_ge; lia).
  assert (E5 : (b0 <? 0xF8) = true) by (apply Z.ltb_lt; lia).
  cbn [utf8_decode]. rewrite E1, E2, E3, E4, E5. reflexivity.
Qed.

(** Decoding undoes the encoding of one code point, whatever follows. *)
Lemma utf8_decode_encode_cp (c : Z) (bs rest : pybytes) :
  is_scalar c -> utf8_encode_cp c = Ok bs ->
  utf8_decode (bs ++ rest) = cons c <$> utf8_decode rest
  /\ Forall is_byte bs.
Proof.
  intros [[Hc0 Hc1] Hs]. unfold utf8_encode_cp.
  destruct (Z.ltb_spec c 0x80) as [H1|H1];
    [|destruct (Z.ltb_spec c 0x800) as [H2|H2];
      [|destruct (Z.ltb_spec c 0x10000) as [H3|H3]]].
  - intros [= <-]. split; [|unfold is_byte in *; repeat constructor; lia].
    cbn [app]. apply utf8_decode_1. lia.
  - intros [= <-].
    pose proof (shiftr_range c 6 5 ltac:(lia) ltac:(lia) ltac:(lia))
      as Hh.
    pose proof (Z.shiftr_div_pow2 c 6 ltac:(lia)) as Hd.
    change (2 ^ 6) with 64 in Hd.
    change (2 ^ 5) with 32 in Hh.
    destruct (lead2_spec _ Hh) as [Hb Hl].
    destruct (cont_spec c) as (Hk & Hp & Hn & Hby).
    split; [|unfold is_byte in *; repeat constructor; lia].
    cbn [app]. rewrite utf8_decode_2 by dlia. cbv zeta.
    rewrite Hk, Hp, Hl. rewrite lor_shiftl_add by dlia.
    change (2 ^ 6) with 64.
    replace (Z.shiftr c 6 * 64 + c mod 64) with c by dlia.
    leb_true. reflexivity.
  - rewrite Hs. intros [= <-].
    pose proof (shiftr_range c 12 4 ltac:(lia) ltac:(lia) ltac:(lia))
      as Hh.
    pose proof (Z.shiftr_div_pow2 c 12 ltac:(lia)) as Hd.
    change (2 ^ 12) with 4096 in Hd.
    pose proof (Z.shiftr_div_pow2 c 6 ltac:(lia)) as Hd6.
    change (2 ^ 6) with 64 in Hd6.
    change (2 ^ 4) with 16 in Hh.
    destruct (lead3_spec _ Hh) as [Hb Hl].
    destruct (cont_spec c) as (Hk & Hp & Hn & Hby).
    destruct (cont_spec (Z.shiftr c 6)) as (Hk' & Hp' & Hn' & Hby').
    split; [|unfold is_byte in *; repeat constructor; lia].
    cbn [app]. rewrite utf8_decode_3 by dlia. cbv zeta.
    rewrite Hk, Hp, Hk', Hp', Hl.
    rewrite (lor_shiftl_add _ (c mod 64)) by dlia.
    rewrite lor_shiftl_add by dlia.
    change (2 ^ 6) with 64. change (2 ^ 12) with 4096.
    replace (Z.shiftr c 12 * 4096 + (Z.shiftr c 6 mod 64 * 64 + c mod 64))
      with c by dlia.
    rewrite Hs. leb_true. reflexivity.
  - intros [= <-].
    pose proof (shiftr_range c 18 3 ltac:(lia) ltac:(lia) ltac:(lia))
      as Hh.
    pose proof (Z.shiftr_div_pow2 c 18 ltac:(lia)) as Hd.
    change (2 ^ 18) with 262144 in Hd.
    pose proof (Z.shiftr_div_pow2 c 12 ltac:(lia)) as Hd12.
    change (2 ^ 12) with 4096 in Hd12.
    pose proof (Z.shiftr_div_pow2 c 6 ltac:(lia)) as Hd6.
    change (2 ^ 6) with 64 in Hd6.
    change (2 ^ 3) with 8 in Hh.
    destruct (lead4_spec _ Hh) as [Hb Hl].
    destruct (cont_spec c) as (Hk & Hp & Hn & Hby).
    destruct (cont_spec (Z.shiftr c 6)) as (Hk' & Hp' & Hn' & Hby').
    destruct (cont_spec (Z.shiftr c 12)) as (Hk'' & Hp'' & Hn'' & Hby'').
    split; [|unfold is_byte in *; repeat constructor; lia].
    cbn [app]. rewrite utf8_decode_4 by dlia. cbv zeta.
    rewrite Hk, Hp, Hk', Hp', Hk'', Hp'', Hl.
    rewrite (lor_shiftl_add _ (c mod 64)) by dlia.
    rewrite (lor_shiftl_add (Z.shiftr c 12 mod 64)) by dlia.
    rewrite lor_shiftl_add by dlia.
    change (2 ^ 6) with 64. change (2 ^ 12) with 4096. change (2 ^ 18) with 262144.
    replace (Z.shiftr c 18 * 262144
             + (Z.shiftr c 12 mod 64 * 4096 + (Z.shiftr c 6 mod 64 * 64 + c mod 64)))
      with c by dlia.
    do 2 leb_true. reflexivity.
Qed.

Lemma utf8_encode_cp_total (c : Z) :
  is_scalar c -> exists bs, utf8_encode_cp c = Ok bs.
Proof.
  intros [_ Hs]. unfold utf8_encode_cp. rewrite Hs.
  repeat match goal with |- context [if ?b then _ else _] => destruct b end;
    eauto.
Qed.

Lemma utf8_roundtrip (s : pystr) :
  Forall is_scalar s ->
  exists bs, utf8_encode s = Ok bs /\ Forall is_byte bs /\ utf8_decode bs = Ok s.
Proof.
  induction 1 as [|c s Hc Hs (bs & He & Hb & Hd)].
  - exists []. repeat split; constructor.
  - destruct (utf8_encode_cp_total c Hc) as [cb Hcb].
    destruct (utf8_decode_encode_cp c cb bs Hc Hcb) as [Hdec Hcbb].
    exists (cb ++ bs). cbn [utf8_encode]. rewrite Hcb, He. repeat split.
    + apply Forall_app; auto.
    + rewrite Hdec, Hd. reflexivity.
Qed.

(** Text of ASCII characters is its own UTF-8 and its own ASCII encoding. *)
Lemma utf8_decode_ascii (l : pybytes) : Forall is_ascii l -> utf8_decode l = Ok l.
Proof.
  induction 1 as [|c l Hc Hl IH]; [reflexivity|].
  rewrite utf8_decode_1 by (unfold is_ascii in Hc; lia). rewrite IH. reflexivity.
Qed.

Lemma ascii_encode_ascii (l : pystr) : Forall is_ascii l -> ascii_encode l = Ok l.
Proof.
  induction 1 as [|c l Hc Hl IH]; [reflexivity|].
  cbn [ascii_encode]. unfold is_ascii in Hc.
  replace (c <? 0x80) with true by (symmetry; apply Z.ltb_lt; lia).
  rewrite IH. reflexivity.
Qed.

(** Base64: the alphabet and its inverse table. *)
Lemma b2a_spec (i : Z) :
  0 <= i < 64 ->
  a2b (b2a i) = Some i /\ (b2a i =? BASE64_PAD) = false /\ is_ascii (b2a i).
Proof.
  intros Hi.
  pose proof (all_below_spec 64
    (fun i => match a2b (b2a i) with Some j => j =? i | None => false end
              && negb (b2a i =? BASE64_PAD)
              && (0 <=? b2a i) && (b2a i <? 0x80))
    ltac:(vm_compute; reflexivity) i Hi) as H.
  cbv beta in H. rewrite !andb_true_iff, negb_true_iff in H.
  destruct H as (((H1 & H2) & H3) & H4).
  destruct (a2b (b2a i)) as [j|]; [|discriminate].
  apply Z.eqb_eq in H1. subst j. unfold is_ascii. repeat split; auto; lia.
Qed.

(** One step of the decoder on a data character, and on a pad. *)
Lemma a2b_base64_data (c v : Z) (r : pybytes) (q lc p : Z) :
  (c =? BASE64_PAD) = false -> a2b c = Some v ->
  a2b_base64 (c :: r) q lc p =
    if q =? 0 then a2b_base64 r 1 v 0
    else if q =? 1 then
      cons (Z.land (Z.lor (Z.shiftl lc 2) (Z.shiftr v 4)) 0xFF)
        <$> a2b_base64 r 2 (Z.land v 0x0F) 0
    else if q =? 2 then
      cons (Z.land (Z.lor (Z.shiftl lc 4) (Z.shiftr v 2)) 0xFF)
        <$> a2b_base64 r 3 (Z.land v 0x03) 0
    else
      cons (Z.land (Z.lor (Z.shiftl lc 6) v) 0xFF) <$> a2b_base64 r 0 0 0.
Proof. intros H1 H2. cbn [a2b_base64]. rewrite H1, H2. reflexivity. Qed.

Lemma a2b_base64_pad (r : pybytes) (q lc p : Z) :
  a2b_base64 (BASE64_PAD :: r) q lc p =
    if 2 <=? q then
      if 4 <=? q + (p + 1) then Ok [] else a2b_base64 r q lc (p + 1)
    else a2b_base64 r q lc p.
Proof. reflexivity. Qed.

Lemma in_range_spec (n v : Z) : in_range n v = true <-> 0 <= v < n.
Proof. unfold in_range. rewrite andb_true_iff. lia. Qed.

Lemma sextets_range (x y z : Z) :
  is_byte x -> is_byte y -> is_byte z ->
  0 <= sextet1 x < 64 /\ 0 <= sextet2 x (Z.shiftr y 4) < 64
  /\ 0 <= sextet3 y (Z.shiftr z 6) < 64 /\ 0 <= sextet4 z < 64.
Proof.
  intros Hx Hy Hz.
  pose proof (all_below2_spec 256 256
    (fun x y => in_range 64 (sextet1 x) && in_range 64 (sextet2 x (Z.shiftr y 4))
                && in_range 64 (sextet3 x (Z.shiftr y 6)) && in_range 64 (sextet4 x))
    ltac:(vm_compute; reflexivity)) as H.
  pose proof (H x y Hx Hy) as Hxy. pose proof (H y z Hy Hz) as Hyz.
  pose proof (H z z Hz Hz) as Hzz.
  cbv beta in Hxy, Hyz, Hzz.
  rewrite !andb_true_iff, !in_range_spec in Hxy, Hyz, Hzz. lia.
Qed.

Lemma octets_spec (x y z : Z) :
  is_byte x -> is_byte y -> is_byte z ->
  let s1 := sextet1 x in
  let s2 := sextet2 x (Z.shiftr y 4) in
  let s3 := sextet3 y (Z.shiftr z 6) in
  let s4 := sextet4 z in
  octet1 s1 s2 = x /\ octet2 s2 s3 = y /\ octet3 s3 s4 = z.
Proof.
  intros Hx Hy Hz.
  pose proof (shiftr_range y 4 4 ltac:(lia) ltac:(lia) Hy) as Hyh.
  pose proof (shiftr_range z 6 2 ltac:(lia) ltac:(lia) Hz) as Hzh.
  pose proof (land_ones_range x 2 ltac:(lia)) as Hxl.
  pose proof (land_ones_range y 4 ltac:(lia)) as Hyl.
  change (Z.ones 2) with 3 in Hxl. change (Z.ones 4) with 0xF in Hyl.
  change (2 ^ 4) with 16 in *. change (2 ^ 2) with 4 in *.
  cbv zeta. unfold sextet1, sextet2, sextet3, sextet4. repeat split.
  - generalize dependent (Z.shiftr y 4). intros yh Hyh.
    apply Z.eqb_eq.
    exact (all_below2_spec 256 16
      (fun x yh => octet1 (Z.shiftr x 2) (Z.lor (Z.shiftl (Z.land x 3) 4) yh) =? x)
      ltac:(vm_compute; reflexivity) x yh Hx Hyh).
  - generalize dependent (Z.shiftr z 6). intros zh Hzh.
    generalize dependent (Z.land x 3). intros xl Hxl.
    apply Z.eqb_eq.
    exact (all_below3_spec 4 4 256
      (fun xl zh y => octet2 (Z.lor (Z.shiftl xl 4) (Z.shiftr y 4))
                        (Z.lor (Z.shiftl (Z.land y 0xF) 2) zh) =? y)
      ltac:(vm_compute; reflexivity) xl zh y Hxl Hzh Hy).
  - generalize dependent (Z.land y 0xF). intros yl Hyl.
    apply Z.eqb_eq.
    exact (all_below2_spec 16 256
      (fun yl z => octet3 (Z.lor (Z.shiftl yl 2) (Z.shiftr z 6)) (Z.land z 0x3F) =? z)
      ltac:(vm_compute; reflexivity) yl z Hyl Hz).
Qed.

(** The decoder on the characters of one group, complete or padded. *)
Lemma a2b_base64_quad (x y z lc : Z) (r : pybytes) :
  is_byte x -> is_byte y -> is_byte z ->
  a2b_base64 (b2a (sextet1 x) :: b2a (sextet2 x (Z.shiftr y 4))
              :: b2a (sextet3 y (Z.shiftr z 6)) :: b2a (sextet4 z) :: r) 0 lc 0
  = cons x <$> (cons y <$> (cons z <$> a2b_base64 r 0 0 0)).
Proof.
  intros Hx Hy Hz.
  destruct (sextets_range x y z Hx Hy Hz) as (R1 & R2 & R3 & R4).
  destruct (octets_spec x y z Hx Hy Hz) as (O1 & O2 & O3).
  cbv zeta in O1, O2, O3. unfold octet1, octet2, octet3 in O1, O2, O3.
  destruct (b2a_spec _ R1) as (A1 & P1 & _).
  destruct (b2a_spec _ R2) as (A2 & P2 & _).
  destruct (b2a_spec _ R3) as (A3 & P3 & _).
  destruct (b2a_spec _ R4) as (A4 & P4 & _).
  rewrite (a2b_base64_data _ _ _ _ _ _ P1 A1). cbn [Z.eqb Pos.eqb].
  rewrite (a2b_base64_data _ _ _ _ _ _ P2 A2). cbn [Z.eqb Pos.eqb].
  rewrite (a2b_base64_data _ _ _ _ _ _ P3 A3). cbn [Z.eqb Pos.eqb].
  rewrite (a2b_base64_data _ _ _ _ _ _ P4 A4). cbn [Z.eqb Pos.eqb].
  rewrite O1, O2, O3. reflexivity.
Qed.

Lemma a2b_base64_pad2 (x lc : Z) :
  is_byte x ->
  a2b_base64 [b2a (sextet1 x); b2a (sextet2 x (Z.shiftr 0 4));
              BASE64_PAD; BASE64_PAD] 0 lc 0 = Ok [x].
Proof.
  intros Hx. assert (H0 : is_byte 0) by (unfold is_byte; lia).
  destruct (sextets_range x 0 0 Hx H0 H0) as (R1 & R2 & _).
  destruct (octets_spec x 0 0 Hx H0 H0) as (O1 & _).
  cbv zeta in O1. unfold octet1 in O1.
  destruct (b2a_spec _ R1) as (A1 & P1 & _).
  destruct (b2a_spec _ R2) as (A2 & P2 & _).
  rewrite (a2b_base64_data _ _ _ _ _ _ P1 A1). cbn [Z.eqb Pos.eqb].
  rewrite (a2b_base64_data _ _ _ _ _ _ P2 A2). cbn [Z.eqb Pos.eqb].
  rewrite O1. rewrite !a2b_base64_pad. reflexivity.
Qed.

Lemma a2b_base64_pad1 (x y lc : Z) :
  is_byte x -> is_byte y ->
  a2b_base64 [b2a (sextet1 x); b2a (sextet2 x (Z.shiftr y 4));
              b2a (sextet3 y (Z.shiftr 0 6)); BASE64_PAD] 0 lc 0 = Ok [x; y].
Proof.
  intros Hx Hy. assert (H0 : is_byte 0) by (unfold is_byte; lia).
  destruct (sextets_range x y 0 Hx Hy H0) as (R1 & R2 & R3 & _).
  destruct (octets_spec x y 0 Hx Hy H0) as (O1 & O2 & _).
  cbv zeta in O1, O2. unfold octet1, octet2 in O1, O2.
  destruct (b2a_spec _ R1) as (A1 & P1 & _).
  destruct (b2a_spec _ R2) as (A2 & P2 & _).
  destruct (b2a_spec _ R3) as (A3 & P3 & _).
  rewrite (a2b_base64_data _ _ _ _ _ _ P1 A1). cbn [Z.eqb Pos.eqb].
  rewrite (a2b_base64_data _ _ _ _ _ _ P2 A2). cbn [Z.eqb Pos.eqb].
  rewrite (a2b_base64_data _ _ _ _ _ _ P3 A3). cbn [Z.eqb Pos.eqb].
  rewrite O1, O2. rewrite a2b_base64_pad. reflexivity.
Qed.

(** The encoder, group by group. *)
Lemma b64encode_1 (x : Z) :
  b64encode [x] =
    [b2a (sextet1 x); b2a (sextet2 x (Z.shiftr 0 4)); BASE64_PAD; BASE64_PAD].
Proof.
  unfold sextet2. change (Z.shiftr 0 4) with 0. rewrite Z.lor_0_r. reflexivity.
Qed.

Lemma b64encode_2 (x y : Z) :
  b64encode [x; y] =
    [b2a (sextet1 x); b2a (sextet2 x (Z.shiftr y 4));
     b2a (sextet3 y (Z.shiftr 0 6)); BASE64_PAD].
Proof.
  unfold sextet3. change (Z.shiftr 0 6) with 0. rewrite Z.lor_0_r. reflexivity.
Qed.

Lemma b64encode_3 (x y z : Z) (r : pybytes) :
  b64encode (x :: y :: z :: r) =
    b2a (sextet1 x) :: b2a (sextet2 x (Z.shiftr y 4))
    :: b2a (sextet3 y (Z.shiftr z 6)) :: b2a (sextet4 z) :: b64encode r.
Proof. reflexivity. Qed.

(** Induction on a list, three elements at a time. *)
Lemma list_ind3 {A} (P : list A -> Prop) :
  P [] -> (forall x, P [x]) -> (forall x y, P [x; y]) ->
  (forall x y z r, P r -> P (x :: y :: z :: r)) ->
  forall l, P l.
Proof.
  intros H0 H1 H2 H3.
  assert (H : forall l, P l /\ (forall a, P (a :: l)) /\ (forall a b, P (a :: b :: l))).
  { induction l as [|c l (IH0 & IH1 & IH2)]; repeat split; auto. }
  intros l. apply H.
Qed.

Lemma b64encode_ascii (bs : pybytes) :
  Forall is_byte bs -> Forall is_ascii (b64encode bs).
Proof.
  assert (Hpad : is_ascii BASE64_PAD) by (unfold is_ascii, BASE64_PAD; lia).
  assert (H0 : is_byte 0) by (unfold is_byte; lia).
  induction bs as [|x|x y|x y z r IH] using list_ind3; intros Hb.
  - constructor.
  - inversion_clear Hb as [|? ? Hx _].
    destruct (sextets_range x 0 0 Hx H0 H0) as (R1 & R2 & _).
    rewrite b64encode_1.
    repeat (match goal with |- Forall _ _ => constructor end); auto;
      now apply b2a_spec.
  - inversion_clear Hb as [|? ? Hx Hb']. inversion_clear Hb' as [|? ? Hy _].
    destruct (sextets_range x y 0 Hx Hy H0) as (R1 & R2 & R3 & _).
    rewrite b64encode_2.
    repeat (match goal with |- Forall _ _ => constructor end); auto;
      now apply b2a_spec.
  - inversion_clear Hb as [|? ? Hx Hb']. inversion_clear Hb' as [|? ? Hy Hb].
    inversion_clear Hb as [|? ? Hz Hr].
    destruct (sextets_range x y z Hx Hy Hz) as (R1 & R2 & R3 & R4).
    rewrite b64encode_3. repeat (constructor; [now apply b2a_spec|]). auto.
Qed.

(** [base64.b64decode] undoes [base64.b64encode]. *)
Lemma a2b_base64_b64encode (bs : pybytes) :
  Forall is_byte bs -> forall lc, a2b_base64 (b64encode bs) 0 lc 0 = Ok bs.
Proof.
  induction bs as [|x|x y|x y z r IH] using list_ind3; intros Hb lc.
  - reflexivity.
  - inversion_clear Hb. rewrite b64encode_1. now apply a2b_base64_pad2.
  - inversion_clear Hb as [|? ? Hx Hb']. inversion_clear Hb'.
    rewrite b64encode_2. now apply a2b_base64_pad1.
  - inversion_clear Hb as [|? ? Hx Hb']. inversion_clear Hb' as [|? ? Hy Hb].
    inversion_clear Hb as [|? ? Hz Hr].
    rewrite b64encode_3, a2b_base64_quad by assumption.
    rewrite (IH Hr). reflexivity.
Qed.

(** ** The codec: round trip and errors *)

Section Codec.

(** The characters of the encoder's output are ASCII, so the two final
    conversions of the encoder and the first of the decoder change nothing. *)
Lemma safe_base64_encode_bytes (bs : pybytes) :
  Forall is_byte bs -> safe_base64_encode (Bytes bs) = Ok (b64encode bs).
Proof.
  intros Hb. unfold safe_base64_encode, base64_b64encode. cbn.
  apply utf8_decode_ascii, b64encode_ascii, Hb.
Qed.

Lemma base64_b64decode_b64encode (bs : pybytes) :
  Forall is_byte bs -> base64_b64decode (b64encode bs) = Ok bs.
Proof.
  intros Hb. unfold base64_b64decode.
  rewrite ascii_encode_ascii by (apply b64encode_ascii, Hb). cbn.
  apply a2b_base64_b64encode, Hb.
Qed.

(** C3. Round trip: for every valid proof value [p], a string that UTF-8 can
    encode (every code point of it is a Unicode scalar value),
    [safe_base64_encode] returns a string, and [safe_base64_decode] of that
    string returns [p]. *)
Theorem safe_base64_roundtrip (p : pystr) :
  Forall is_scalar p ->
  exists encoded,
    safe_base64_encode (Str p) = Ok encoded
    /\ safe_base64_decode encoded = Ok p.
Proof.
  intros Hp. destruct (utf8_roundtrip p Hp) as (bs & He & Hb & Hd).
  exists (b64encode bs). split.
  - unfold safe_base64_encode, base64_b64encode. rewrite He. cbn.
    apply utf8_decode_ascii, b64encode_ascii, Hb.
  - unfold safe_base64_decode. rewrite base64_b64decode_b64encode by exact Hb.
    cbn. exact Hd.
Qed.

(** The round trip on the text of a 402 challenge with a euro sign and an
    emoji in it. *)
Lemma safe_base64_roundtrip_witness :
  Forall is_scalar (lit "pay 0.01 " ++ [0x20AC; 0x1F600])
  /\ exists encoded,
       safe_base64_encode (Str (lit "pay 0.01 " ++ [0x20AC; 0x1F600])) = Ok encoded
       /\ safe_base64_decode encoded = Ok (lit "pay 0.01 " ++ [0x20AC; 0x1F600]).
Proof.
  assert (H : Forall is_scalar (lit "pay 0.01 " ++ [0x20AC; 0x1F600])).
  { set (l := lit "pay 0.01 " ++ [0x20AC; 0x1F600]). vm_compute in l. subst l.
    repeat (match goal with |- Forall _ _ => constructor end);
      (split; [unfold is_codepoint; lia | reflexivity]). }
  split; [exact H | exact (safe_base64_roundtrip _ H)].
Defined.

(** The hypothesis of the round trip is needed: a string with a lone
    surrogate has no UTF-8 encoding. *)
Example safe_base64_encode_surrogate :
  safe_base64_encode (Str [0xD800]) = Raise UnicodeEncodeError.
Proof. reflexivity. Qed.

(** Each stage of the decoder raises its own exception and no other. *)
Lemma fmap_raise {A B} (f : A -> B) (r : result A) (e : exn) :
  f <$> r = Raise e -> r = Raise e.
Proof. destruct r; [discriminate | intros [= ->]; reflexivity]. Qed.

Lemma ascii_encode_raises (s : pystr) (e : exn) :
  ascii_encode s = Raise e -> e = ValueError.
Proof.
  induction s as [|c s IH]; cbn [ascii_encode]; [discriminate|].
  destruct (c <? 0x80).
  - intros H. apply IH, (fmap_raise _ _ _ H).
  - congruence.
Qed.

Lemma a2b_base64_raises (cs : pybytes) (q lc p : Z) (e : exn) :
  a2b_base64 cs q lc p = Raise e -> e = BinasciiError.
Proof.
  revert q lc p. induction cs as [|c cs IH]; intros q lc p; cbn [a2b_base64].
  - destruct (q =? 0); congruence.
  - repeat match goal with
           | |- context [if ?b then _ else _] => destruct b
           | |- context [match a2b ?c with _ => _ end] => destruct (a2b c)
           end;
      try discriminate; try apply IH;
      intros H; apply fmap_raise in H; revert H; apply IH.
Qed.

Lemma utf8_decode_raises (bs : pybytes) (e : exn) :
  utf8_decode bs = Raise e -> e = UnicodeDecodeError.
Proof.
  remember (List.length bs) as n eqn:Hn.
  assert (Hle : (List.length bs <= n)%nat) by lia. clear Hn.
  revert bs Hle. induction n as [|n IH]; intros bs Hle.
  - destruct bs; [discriminate | cbn in Hle; lia].
  - destruct bs as [|b0 r0]; [discriminate|]. cbn [utf8_decode].
    repeat match goal with
           | |- context [if ?b then _ else _] => destruct b
           | |- context [match ?l with [] => _ | _ :: _ => _ end] =>
               is_var l; destruct l
           end;
      try congruence;
      intros H; apply fmap_raise in H; revert H; apply IH; cbn in Hle |- *; lia.
Qed.

(** Characters outside the alphabet are skipped wherever they stand. *)
Lemma a2b_base64_skip (cs : pybytes) (q lc p : Z) :
  a2b_base64 cs q lc p = a2b_base64 (List.filter is_significant cs) q lc p.
Proof.
  revert q lc p. induction cs as [|c cs IH]; intros q lc p; [reflexivity|].
  cbn [List.filter]. unfold is_significant at 1, is_data.
  destruct (c =? BASE64_PAD) eqn:Hpad; cbn [orb].
  - cbn [a2b_base64]. rewrite Hpad.
    repeat match goal with
           | |- context [if ?b then _ else _] => destruct b
           end; auto.
  - destruct (a2b c) as [v|] eqn:Hv.
    + rewrite !(a2b_base64_data c v) by assumption.
      repeat match goal with
             | |- context [if ?b then _ else _] => destruct b
             end; rewrite IH; reflexivity.
    + cbn [a2b_base64]. rewrite Hpad, Hv. apply IH.
Qed.

(** Data characters never complete a pad sequence: the number of them read,
    modulo four, is the position in the quad. *)
Lemma a2b_base64_data_length (cs : pybytes) (q lc p : Z) :
  Forall (fun c => is_data c = true) cs -> 0 <= q < 4 ->
  (q + Z.of_nat (List.length cs)) mod 4 <> 0 ->
  a2b_base64 cs q lc p = Raise BinasciiError.
Proof.
  intros Hd. revert q lc p.
  induction Hd as [|c cs Hc Hcs IH]; intros q lc p Hq Hn.
  - cbn [a2b_base64]. cbn in Hn. rewrite Z.add_0_r in Hn.
    rewrite Z.mod_small in Hn by lia.
    destruct (Z.eqb_spec q 0); [contradiction | reflexivity].
  - unfold is_data in Hc. destruct (a2b c) as [v|] eqn:Hv; [|discriminate].
    assert (Hpad : (c =? BASE64_PAD) = false).
    { apply Z.eqb_neq. intros ->. vm_compute in Hv. discriminate. }
    rewrite (a2b_base64_data c v) by assumption.
    cbn [List.length] in Hn. rewrite Nat2Z.inj_succ in Hn.
    destruct (Z.eqb_spec q 0) as [->|H0].
    { apply IH; [lia | dlia]. }
    destruct (Z.eqb_spec q 1) as [->|H1].
    { rewrite IH; [reflexivity | lia | dlia]. }
    destruct (Z.eqb_spec q 2) as [->|H2].
    { rewrite IH; [reflexivity | lia | dlia]. }
    rewrite IH; [reflexivity | lia | dlia].
Qed.

(** The characters the encoder writes, and the data characters, are ASCII. *)
Lemma b2a_In (i : Z) : In (b2a i) (BASE64_PAD :: table_b2a_base64).
Proof.
  unfold b2a. destruct (nth_in_or_default (Z.to_nat i) table_b2a_base64 BASE64_PAD)
    as [H| ->]; [right; exact H | left; reflexivity].
Qed.

Lemma index_of_In (c : Z) (l : list Z) (i v : Z) :
  index_of c l i = Some v -> In c l.
Proof.
  revert i. induction l as [|x l IH]; intros i; cbn [index_of]; [discriminate|].
  destruct (Z.eqb_spec x c) as [->|Hne]; [left; reflexivity|].
  intros H. right. exact (IH _ H).
Qed.

Lemma is_data_ascii (c : Z) : is_data c = true -> is_ascii c.
Proof.
  unfold is_data, a2b. destruct (index_of c table_b2a_base64 0) eqn:H; [|discriminate].
  intros _. apply index_of_In in H.
  assert (Hall : Forall is_ascii table_b2a_base64).
  { apply List.Forall_forall. intros x Hx.
    assert (Hb : forallb (in_range 0x80) table_b2a_base64 = true)
      by (vm_compute; reflexivity).
    rewrite forallb_forall in Hb. apply in_range_spec, Hb, Hx. }
  rewrite List.Forall_forall in Hall. exact (Hall c H).
Qed.

Lemma filter_significant_ascii (s : pystr) :
  Forall is_ascii s -> Forall is_ascii (List.filter is_significant s).
Proof.
  induction 1 as [|c s Hc Hs IH]; cbn [List.filter]; [constructor|].
  destruct (is_significant c); [constructor|]; assumption.
Qed.

(** C4, as the code has it.  [safe_base64_decode] has no exception of its
    own and catches none: the exceptions of [base64.b64decode] and of
    [bytes.decode] are its outcomes.  A character that is not ASCII raises
    [ValueError]; characters outside the alphabet are dropped before
    anything is checked, so that a malformed input can decode; data
    characters whose number is no multiple of four raise [binascii.Error];
    and bytes that are not UTF-8 raise [UnicodeDecodeError]. *)
Theorem safe_base64_decode_outcomes :
  (forall s,
     (exists t, safe_base64_decode s = Ok t)
     \/ safe_base64_decode s = Raise ValueError
     \/ safe_base64_decode s = Raise BinasciiError
     \/ safe_base64_decode s = Raise UnicodeDecodeError)
  /\ (forall s, Exists (fun c => 0x80 <= c) s ->
                safe_base64_decode s = Raise ValueError)
  /\ (forall s, Forall is_ascii s ->
                safe_base64_decode s
                = safe_base64_decode (List.filter is_significant s))
  /\ (forall s, Forall (fun c => is_data c = true) s ->
                Z.of_nat (List.length s) mod 4 <> 0 ->
                safe_base64_decode s = Raise BinasciiError)
  /\ (forall s bs, base64_b64decode s = Ok bs ->
                   utf8_decode bs = Raise UnicodeDecodeError ->
                   safe_base64_decode s = Raise UnicodeDecodeError).
Proof.
  repeat split.
  - intros s. unfold safe_base64_decode, base64_b64decode.
    destruct (ascii_encode s) as [bs|e] eqn:Ha.
    + cbn. destruct (a2b_base64 bs 0 0 0) as [out|e] eqn:Hb.
      * cbn. destruct (utf8_decode out) as [t|e] eqn:Hu; [left; eauto|].
        apply utf8_decode_raises in Hu. subst e. auto.
      * cbn. apply a2b_base64_raises in Hb. subst e. auto.
    + cbn. apply ascii_encode_raises in Ha. subst e. auto.
  - intros s Hs. unfold safe_base64_decode, base64_b64decode.
    assert (Ha : ascii_encode s = Raise ValueError).
    { induction Hs as [c s Hc|c s Hs IH]; cbn [ascii_encode].
      - destruct (Z.ltb_spec c 0x80); [lia | reflexivity].
      - destruct (c <? 0x80); [rewrite IH|]; reflexivity. }
    rewrite Ha. reflexivity.
  - intros s Hs. unfold safe_base64_decode, base64_b64decode.
    rewrite !ascii_encode_ascii by auto using filter_significant_ascii.
    cbn. rewrite a2b_base64_skip. reflexivity.
  - intros s Hs Hn. unfold safe_base64_decode, base64_b64decode.
    rewrite ascii_encode_ascii.
    + cbn. rewrite a2b_base64_data_length; [reflexivity | assumption | lia |].
      rewrite Z.add_0_l. exact Hn.
    + eapply List.Forall_impl; [|exact Hs]. exact is_data_ascii.
  - intros s bs Hb Hu. unfold safe_base64_decode. rewrite Hb. cbn. exact Hu.
Qed.

(** The four outcomes on four inputs: a euro sign, four exclamation marks,
    a truncated group, and the encoding of the byte [0xFF]. *)
Lemma safe_base64_decode_outcomes_witness :
  safe_base64_decode [0x20AC] = Raise ValueError
  /\ safe_base64_decode (lit "!!!!") = safe_base64_decode []
  /\ safe_base64_decode (lit "YWJ") = Raise BinasciiError
  /\ safe_base64_decode (lit "/w==") = Raise UnicodeDecodeError.
Proof.
  destruct safe_base64_decode_outcomes as (_ & H1 & H2 & H3 & H4).
  split; [|split; [|split]].
  - apply H1. constructor. lia.
  - apply (H2 (lit "!!!!")).
    set (l := lit "!!!!"). vm_compute in l. subst l.
    repeat (match goal with |- Forall _ _ => constructor end);
      unfold is_ascii; lia.
  - apply H3; [|vm_compute; discriminate].
    repeat (match goal with |- Forall _ _ => constructor end); reflexivity.
  - apply (H4 _ [0xFF]); reflexivity.
Defined.

(** C4, as the specification states it, fails: four exclamation marks are
    not valid base64, and they decode to the empty string. *)
Lemma safe_base64_decode_no_DecodeError : ~ rejects_with_DecodeError.
Proof.
  intros [e H].
  assert (Hm : malformed (lit "!!!!")).
  { left. intros (bs & _ & Heq).
    assert (Hin : In 33 (BASE64_PAD :: table_b2a_base64)).
    { change (lit "!!!!") with [33; 33; 33; 33] in Heq.
      destruct bs as [|x [|y [|z r]]]; cbn [b64encode] in Heq;
        [discriminate Heq| | |];
        injection Heq as H33; rewrite H33; apply b2a_In. }
    vm_compute in Hin.
    repeat (destruct Hin as [Hin|Hin]; [discriminate Hin|]). exact Hin. }
  specialize (H _ Hm). vm_compute in H. discriminate H.
Qed.

End Codec.

(** ** Numbers as text *)

Import Config Objects PyNum X402 Main.

Example py_str_prices :
  map py_str
    [PyFloat 0.01; PyFloat 0.05; PyFloat 0.02; PyFloat 0.10; PyFloat 0.50;
     PyFloat 10.00; PyInt 10000]
  = ["0.01"; "0.05"; "0.02"; "0.1"; "0.5"; "10.0"; "10000"].
Proof. vm_compute. reflexivity. Qed.

Example str_float_layouts :
  map str_float
    [(0.1 * 3)%float; 1e16%float; 1e15%float; 1e-5%float; 0.0001%float;
     123456789.123%float; 5e-324%float; 1.7976931348623157e308%float;
     (1 / 3)%float; (-2.5)%float]
  = ["0.30000000000000004"; "1e+16"; "1000000000000000.0"; "1e-05"; "0.0001";
     "123456789.123"; "5e-324"; "1.7976931348623157e+308";
     "0.3333333333333333"; "-2.5"].
Proof. vm_compute. reflexivity. Qed.

Example smallest_units_of_a_cent :
  (scaled ← py_mul (PyFloat 0.01) (PyInt 1000000); py_int scaled) = Ok 10000.
Proof. vm_compute. reflexivity. Qed.

(** ** The gate *)

Section Gate.

Context {W Res : Type}.
Variable settings : Settings.
Variables (amount : pynum) (description : string).
Variables (network recipient token : option string).
Variable func : @Endpoint W Res.

#[local] Abbreviation gate :=
  (wrapper settings amount description network recipient token func).
#[local] Abbreviation requirement :=
  (X402PaymentRequired_init settings amount description network recipient token).

(** What a call of the protected operation does to the state. *)
Lemma call_spec (args : list pyobj) (kwargs : gmap string pyobj) (st : state) :
  call func args kwargs st =
    (fst (func args kwargs (world st)),
     {| world := snd (func args kwargs (world st));
        trace := trace st ++ [EvInvoke args kwargs] |}).
Proof.
  unfold call, run, log, mbind, M_bind. cbn.
  destruct (func args kwargs (world st)). reflexivity.
Qed.

(** The proof that the wrapper reads, in the two situations of the claims. *)
Lemma read_payment_proof_none (request : option pyobj) :
  carries_no_proof request ->
  exists o, read_payment_proof request = Ok o /\ py_bool_opt o = false.
Proof.
  destruct request as [[r| |]|]; cbn; try contradiction.
  - intros [H1 H2]. rewrite H1. cbn. eauto.
  - intros _. exists None. auto.
Qed.

Lemma read_payment_proof_some (request : option pyobj) (proof : string) :
  presents request proof -> read_payment_proof request = Ok (Some proof).
Proof.
  intros [Hp H]. destruct request as [[r| |]|]; try contradiction. cbn.
  destruct H as [H|[H1 H2]].
  - rewrite H. cbn. rewrite Hp. reflexivity.
  - rewrite H1. cbn. rewrite H2. reflexivity.
Qed.

(** The four ways through the wrapper. *)
Lemma wrapper_disabled (args : list pyobj) (kwargs : gmap string pyobj) (st : state) :
  x402_enabled settings = false ->
  gate args kwargs st = call func args kwargs st.
Proof. intros H. unfold wrapper. rewrite H. reflexivity. Qed.

Lemma wrapper_no_proof (args : list pyobj) (kwargs : gmap string pyobj) (st : state) :
  x402_enabled settings = true ->
  carries_no_proof (find_request args kwargs) ->
  gate args kwargs st = (Raise (ExnX402PaymentRequired requirement), st).
Proof.
  intros He Hn. destruct (read_payment_proof_none _ Hn) as (o & Ho & Hb).
  unfold wrapper, mbind, M_bind, lift, raise. rewrite He, Ho. cbn.
  destruct o as [p|]; [|reflexivity]. cbn in Hb. rewrite Hb. reflexivity.
Qed.

Lemma wrapper_rejected (args : list pyobj) (kwargs : gmap string pyobj)
    (proof : string) (st : state) :
  x402_enabled settings = true ->
  presents (find_request args kwargs) proof ->
  _validate_payment_proof settings proof amount = Ok false ->
  gate args kwargs st =
    (Raise (HTTPException 402 "Invalid payment proof"),
     {| world := world st; trace := trace st ++ [EvValidate proof amount] |}).
Proof.
  intros He Hp Hv. pose proof (read_payment_proof_some _ _ Hp) as Hr.
  destruct Hp as [Hp _].
  unfold wrapper, validate, mbind, M_bind, lift, log, raise.
  rewrite He, Hr, Hp. cbn. rewrite Hv. reflexivity.
Qed.

Lemma wrapper_accepted (args : list pyobj) (kwargs : gmap string pyobj)
    (proof : string) (st : state) :
  x402_enabled settings = true ->
  presents (find_request args kwargs) proof ->
  _validate_payment_proof settings proof amount = Ok true ->
  gate args kwargs st =
    (fst (func args kwargs (world st)),
     {| world := snd (func args kwargs (world st));
        trace := trace st ++ [EvValidate proof amount; EvInvoke args kwargs] |}).
Proof.
  intros He Hp Hv. pose proof (read_payment_proof_some _ _ Hp) as Hr.
  destruct Hp as [Hp _].
  unfold wrapper, validate, mbind, M_bind, lift, log.
  rewrite He, Hr, Hp. cbn. rewrite Hv. cbn. rewrite call_spec. cbn.
  rewrite <- List.app_assoc. reflexivity.
Qed.

(** The slip of lines 60-61: an object found under the keyword [request] is
    used as the HTTP request whatever its class. *)
Lemma wrapper_request_is_no_Request (args : list pyobj)
    (kwargs : gmap string pyobj) (o : pyobj) (st : state) :
  x402_enabled settings = true ->
  find_request args kwargs = Some o ->
  isinstance_Request o = false ->
  gate args kwargs st = (Raise (AttributeError "headers"), st).
Proof.
  intros He Hf Ho. unfold wrapper, mbind, M_bind, lift. rewrite He, Hf.
  destruct o; [discriminate Ho | reflexivity | reflexivity].
Qed.

Lemma invocations_app (w w' : W) (t t' : list event) :
  invocations {| world := w; trace := t ++ t' |}
  = (invocations {| world := w'; trace := t |}
     + List.length (List.filter is_invoke t'))%nat.
Proof.
  unfold invocations. cbn.
  rewrite List.filter_app, List.length_app. reflexivity.
Qed.

Lemma validations_app (w w' : W) (t t' : list event) :
  validations {| world := w; trace := t ++ t' |}
  = (validations {| world := w'; trace := t |}
     + List.length (List.filter is_validate t'))%nat.
Proof.
  unfold validations. cbn.
  rewrite List.filter_app, List.length_app. reflexivity.
Qed.

(** C7. With gating disabled the wrapper is the protected operation: on
    every request, with a payment header or without, it returns what the
    operation returns and leaves the world as the operation leaves it; the
    operation is called once and the validator is not called. *)
Theorem wrapper_gating_disabled (args : list pyobj) (kwargs : gmap string pyobj)
    (st : state) :
  x402_enabled settings = false ->
  gate args kwargs st =
    (fst (func args kwargs (world st)),
     {| world := snd (func args kwargs (world st));
        trace := trace st ++ [EvInvoke args kwargs] |})
  /\ invocations (snd (gate args kwargs st)) = S (invocations st)
  /\ validations (snd (gate args kwargs st)) = validations st.
Proof.
  intros H. rewrite wrapper_disabled, call_spec by exact H. cbn [snd].
  split; [reflexivity|]. destruct st as [w t]. cbn [world trace]. split.
  - rewrite (invocations_app _ w). cbn. lia.
  - rewrite (validations_app _ w). cbn. lia.
Qed.

(** C1, as the code has it.  The gate keeps no record of the proofs it has
    served: a request that presents a proof the validator accepts invokes
    the protected operation once, whatever the trace holds already, so the
    same request served [n] times invokes it [n] times. *)
Theorem wrapper_replay (args : list pyobj) (kwargs : gmap string pyobj)
    (proof : string) (n : nat) (st : state) :
  x402_enabled settings = true ->
  presents (find_request args kwargs) proof ->
  _validate_payment_proof settings proof amount = Ok true ->
  invocations (replay n (gate args kwargs) st) = (n + invocations st)%nat.
Proof.
  intros He Hp Hv. revert st. induction n as [|n IH]; intros st; [reflexivity|].
  cbn [replay]. rewrite IH. rewrite (wrapper_accepted _ _ _ _ He Hp Hv). cbn [snd].
  destruct st as [w t]. cbn [world trace]. rewrite (invocations_app _ w). cbn. lia.
Qed.

End Gate.

(** *** The gate on the requests of the scenarios *)

Example wrapper_serves_paying_request :
  wrapper default_settings (PyFloat 0.01) "Price direction prediction"
    None None None counting_operation
    [] (keyword paying_request) (mkState 0%nat [])
  = (Ok 0%nat,
     mkState 1%nat
       [EvValidate tx_hash (PyFloat 0.01);
        EvInvoke [] (keyword paying_request)]).
Proof. reflexivity. Qed.

Example wrapper_challenges_bare_request :
  wrapper default_settings (PyFloat 0.01) "Price direction prediction"
    None None None counting_operation
    [] (keyword bare_request) (mkState 0%nat [])
  = (Raise (ExnX402PaymentRequired
              (mkX402PaymentRequired (PyFloat 0.01) "Price direction prediction"
                 "base" "0x0000000000000000000000000000000000000000" "USDC")),
     mkState 0%nat []).
Proof. reflexivity. Qed.

Example wrapper_refuses_short_proof :
  _validate_payment_proof default_settings "0xdeadbeef" (PyFloat 0.01) = Ok false
  /\ _validate_payment_proof default_settings "abcdefghijklmnopqrstu" (PyFloat 1e9)
     = Ok true.
Proof. split; reflexivity. Qed.

Lemma wrapper_gating_disabled_witness :
  x402_enabled (mkSettings false "0x0" "base" "USDC" "" "" "" true 300 false) = false
  /\ fst (wrapper (mkSettings false "0x0" "base" "USDC" "" "" "" true 300 false)
            (PyFloat 0.01) "Price direction prediction" None None None
            counting_operation [] (keyword bare_request) (mkState 7%nat []))
     = Ok 7%nat.
Proof.
  split; [reflexivity|].
  rewrite (proj1 (wrapper_gating_disabled
                    (mkSettings false "0x0" "base" "USDC" "" "" "" true 300 false)
                    (PyFloat 0.01) "Price direction prediction" None None None
                    counting_operation [] (keyword bare_request)
                    (mkState 7%nat []) eq_refl)).
  reflexivity.
Defined.

Lemma paying_request_presents :
  presents (find_request [] (keyword paying_request)) tx_hash.
Proof. split; [reflexivity | left; reflexivity]. Qed.

Lemma wrapper_replay_witness :
  x402_enabled default_settings = true
  /\ presents (find_request [] (keyword paying_request)) tx_hash
  /\ _validate_payment_proof default_settings tx_hash (PyFloat 0.01) = Ok true
  /\ invocations
       (replay 3
          (wrapper default_settings (PyFloat 0.01) "Price direction prediction"
             None None None counting_operation [] (keyword paying_request))
          (mkState 0%nat []))
     = 3%nat.
Proof.
  split; [reflexivity|]. split; [exact paying_request_presents|].
  split; [reflexivity|].
  exact (wrapper_replay default_settings (PyFloat 0.01)
           "Price direction prediction" None None None counting_operation
           [] (keyword paying_request) tx_hash 3 (mkState 0%nat [])
           eq_refl paying_request_presents eq_refl).
Defined.

(** C1, as the specification states it, fails: the request that was served
    is served again, and the protected operation runs a second time. *)
Lemma replay_delivers_twice : ~ delivers_at_most_once.
Proof.
  intros H.
  specialize (H default_settings nat nat (PyFloat 0.01)
                "Price direction prediction" None None None counting_operation
                [] (keyword paying_request) (mkState 0%nat [])).
  specialize (H _ _ _ _ eq_refl eq_refl). vm_compute in H. discriminate H.
Qed.

(** ** The validator *)

(** The validator never raises. *)
Lemma _validate_payment_proof_returns (settings : Settings) (proof : string)
    (expected_amount : pynum) :
  exists b, _validate_payment_proof settings proof expected_amount = Ok b.
Proof.
  unfold _validate_payment_proof, try_except.
  repeat match goal with |- context [if ?b then _ else _] => destruct b end;
    eauto.
Qed.

(** When the validator refuses. *)
Lemma _validate_payment_proof_false_iff (settings : Settings) (proof : string)
    (expected_amount : pynum) :
  _validate_payment_proof settings proof expected_amount = Ok false
  <-> proof = ""
      \/ (debug settings = false /\ x402_enabled settings = true
          /\ (String.length proof <= 20)%nat).
Proof.
  unfold _validate_payment_proof, try_except.
  destruct proof as [|a proof]; [cbn; tauto|]. cbn [py_bool_str negb].
  destruct (debug settings), (x402_enabled settings); cbn [orb negb];
    try (split; [discriminate | intros [H|(H1 & H2 & _)]; discriminate]).
  set (p := String a proof).
  destruct (Nat.eqb_spec (String.length p) 66) as [H66|H66].
  - rewrite andb_true_r.
    replace (20 <? String.length p)%nat with true
      by (symmetry; apply Nat.ltb_lt; lia).
    destruct (String.prefix "0x" p);
      (split; [discriminate | intros [H|(_ & _ & H)]; [discriminate H | lia]]).
  - rewrite andb_false_r.
    destruct (Nat.ltb_spec 20 (String.length p)) as [H20|H20].
    + split; [discriminate | intros [H|(_ & _ & H)]; [discriminate H | lia]].
    + split; [intros _; right; repeat split; lia | reflexivity].
Qed.

(** C9. The validator is total: on every proof string and every expected
    amount it returns a boolean and raises nothing; the boolean is [False]
    on the empty proof, and, outside debug mode with gating enabled, on
    every proof of at most 20 characters. *)
Theorem _validate_payment_proof_total (settings : Settings) (proof : string)
    (expected_amount : pynum) :
  exists b,
    _validate_payment_proof settings proof expected_amount = Ok b
    /\ (proof = "" -> b = false)
    /\ (debug settings = false -> x402_enabled settings = true ->
        (String.length proof <= 20)%nat -> b = false).
Proof.
  destruct (_validate_payment_proof_returns settings proof expected_amount)
    as [b Hb].
  exists b. split; [exact Hb|]. split.
  - intros ->. cbn in Hb. congruence.
  - intros Hd He Hl.
    assert (H : _validate_payment_proof settings proof expected_amount = Ok false)
      by (apply _validate_payment_proof_false_iff; auto).
    congruence.
Qed.

Lemma _validate_payment_proof_total_witness :
  exists b,
    _validate_payment_proof default_settings "0xdeadbeef" (PyFloat 0.01) = Ok b
    /\ b = false.
Proof.
  destruct (_validate_payment_proof_total default_settings "0xdeadbeef"
              (PyFloat 0.01)) as (b & Hb & _ & H).
  exists b. split; [exact Hb|]. apply H; [reflexivity | reflexivity | cbn; lia].
Defined.

(** C2, as the code has it.  The validator does not look at the expected
    amount: its answer is the same for every amount.  It refuses the empty
    proof and, outside debug mode with gating enabled, the proofs of at
    most 20 characters, and nothing else.  On a refusal the wrapper raises
    the 402 [HTTPException]; the trace holds the call of the validator and
    no call of the protected operation, and there is nothing else the
    wrapper could call. *)
Theorem _validate_payment_proof_ignores_amount :
  (forall settings proof a1 a2,
     _validate_payment_proof settings proof a1
     = _validate_payment_proof settings proof a2)
  /\ (forall settings proof a,
        _validate_payment_proof settings proof a = Ok false
        <-> proof = ""
            \/ (debug settings = false /\ x402_enabled settings = true
                /\ (String.length proof <= 20)%nat))
  /\ (forall (W Res : Type) settings amount description network recipient token
             (func : @Endpoint W Res) args kwargs proof st,
        x402_enabled settings = true ->
        presents (find_request args kwargs) proof ->
        _validate_payment_proof settings proof amount = Ok false ->
        wrapper settings amount description network recipient token func
          args kwargs st
        = (Raise (HTTPException 402 "Invalid payment proof"),
           {| world := world st;
              trace := trace st ++ [EvValidate proof amount] |})).
Proof.
  split; [|split].
  - reflexivity.
  - intros. apply _validate_payment_proof_false_iff.
  - intros. apply wrapper_rejected; assumption.
Qed.

Lemma _validate_payment_proof_ignores_amount_witness :
  _validate_payment_proof default_settings tx_hash (PyFloat 0.01)
  = _validate_payment_proof default_settings tx_hash (PyInt 1000000000)
  /\ _validate_payment_proof default_settings "0xdeadbeef" (PyFloat 0.01)
     = Ok false.
Proof.
  destruct _validate_payment_proof_ignores_amount as (H1 & H2 & _).
  split; [apply H1|]. apply H2. right. repeat split. cbn. lia.
Defined.

(** C2, as the specification states it, fails, however the declared amount
    is read out of the proof: a transaction hash is accepted for an
    expected amount above the one it declares. *)
Lemma no_declared_amount_check :
  ~ exists declared : string -> Z, checks_declared_amount declared.
Proof.
  intros [declared H].
  specialize (H default_settings tx_hash (declared tx_hash + 1) ltac:(lia)).
  discriminate H.
Qed.

(** ** The chain table *)

Lemma chain_ids_keys (network : string) :
  chain_ids !! network = None <-> ~ In network known_networks.
Proof.
  unfold chain_ids, known_networks. cbn [In]. split.
  - intros H Hin.
    repeat (destruct Hin as [<-|Hin]; [vm_compute in H; discriminate H|]).
    exact Hin.
  - intros H. rewrite !lookup_insert_ne by (intros <-; apply H; tauto).
    apply lookup_empty.
Qed.

Lemma usdc_addresses_unknown (network : string) :
  ~ In network known_networks -> usdc_addresses !! network = None.
Proof.
  unfold usdc_addresses, known_networks. cbn [In]. intros H.
  rewrite !lookup_insert_ne by (intros <-; apply H; tauto).
  apply lookup_empty.
Qed.

(** C10. A network name outside the chain table falls back to Base without
    an error: the chain id is 8453, the token is the USDC contract of Base,
    and the payment request generated under such a setting names the chain
    [eip155:8453] and that token. *)
Theorem unknown_network_falls_back_to_base :
  (forall network,
     ~ In network known_networks -> _get_chain_id network = 8453)
  /\ (forall settings,
        ~ In (x402_network settings) known_networks ->
        _get_token_address settings
        = "0x833589fCD6eDb6E08f4c7C32D4f71b54bdA02913")
  /\ (forall settings amount resource description validity_seconds units,
        ~ In (x402_network settings) known_networks ->
        (scaled ← py_mul amount (PyInt 1000000); py_int scaled) = Ok units ->
        generate_payment_request settings amount resource description
          validity_seconds
        = Ok {|
            x402_version := 1;
            accepts := [ {|
              scheme := "exact";
              network := "eip155:8453";
              maxAmountRequired := str_int units;
              resource := resource;
              description := description;
              mimeType := "application/json";
              payTo := x402_recipient_address settings;
              maxTimeoutSeconds := validity_seconds;
              asset_id :=
                "eip155:8453/erc20:0x833589fCD6eDb6E08f4c7C32D4f71b54bdA02913"
            |} ]
          |}).
Proof.
  assert (Hc : forall network,
             ~ In network known_networks -> _get_chain_id network = 8453).
  { intros network H. unfold _get_chain_id.
    rewrite (proj2 (chain_ids_keys network) H). reflexivity. }
  assert (Ht : forall settings,
             ~ In (x402_network settings) known_networks ->
             _get_token_address settings
             = "0x833589fCD6eDb6E08f4c7C32D4f71b54bdA02913").
  { intros settings H. unfold _get_token_address.
    rewrite (usdc_addresses_unknown _ H). reflexivity. }
  split; [exact Hc|]. split; [exact Ht|].
  intros settings amount resource description validity_seconds units H Hu.
  unfold generate_payment_request. rewrite (Hc _ H), (Ht _ H).
  destruct (py_mul amount (PyInt 1000000)) as [scaled|e]; [|discriminate Hu].
  cbn in Hu |- *. rewrite Hu. reflexivity.
Qed.

Lemma unknown_network_falls_back_to_base_witness :
  ~ In "solana" known_networks
  /\ _get_chain_id "solana" = 8453
  /\ _get_token_address
       (mkSettings true "0x0" "solana" "USDC" "" "" "" true 300 false)
     = "0x833589fCD6eDb6E08f4c7C32D4f71b54bdA02913".
Proof.
  assert (H : ~ In "solana" known_networks).
  { cbn. intros H. repeat (destruct H as [H|H]; [discriminate H|]). exact H. }
  destruct unknown_network_falls_back_to_base as (H1 & H2 & _).
  split; [exact H|]. split; [exact (H1 _ H)|].
  exact (H2 (mkSettings true "0x0" "solana" "USDC" "" "" "" true 300 false) H).
Defined.

(** ** The application *)

(** C5 fails on the paid endpoints of the application, on every request to
    them.  The framework hands the wrapper the request body under the
    keyword [request]; the wrapper takes it for the HTTP request, since only
    the positional arguments are tested with [isinstance], and reading
    [headers] from it raises [AttributeError].  The answer to a request
    without a payment header is an internal server error, not the 402
    challenge; the protected operation is not invoked. *)
Theorem post_predict_direction_without_proof (settings : Settings)
    (W Res : Type) (body : @Endpoint W Res) (http : Request)
    (request : PredictionRequest) (st : @state W) :
  x402_enabled settings = true ->
  post_predict_direction settings body http request st
  = (InternalServerError (AttributeError "headers"), st).
Proof.
  intros He. unfold post_predict_direction, predict_direction, x402_paywall.
  rewrite (wrapper_request_is_no_Request settings _ _ _ _ _ _ _ _
             (ObjPredictionRequest request) st He);
    [reflexivity | reflexivity | reflexivity].
Qed.

(** The request of the scenario: no payment header, the default settings. *)
Lemma post_predict_direction_without_proof_witness :
  x402_enabled default_settings = true
  /\ post_predict_direction default_settings counting_operation bare_request
       (mkPredictionRequest BTC D1) (mkState 0%nat [])
     = (InternalServerError (AttributeError "headers"), mkState 0%nat []).
Proof.
  split; [reflexivity|].
  exact (post_predict_direction_without_proof default_settings nat nat
           counting_operation bare_request (mkPredictionRequest BTC D1)
           (mkState 0%nat []) eq_refl).
Defined.

(** C6 fails on the amount.  The 402 response to a request without a payment
    header, for the price 0.01, has one entry in [accepts], with the scheme
    ["exact"] and the configured recipient, and its [maxAmountRequired] is
    the float printed by [str], ["0.01"]; the integer string ["10000"] is
    what [generate_payment_request] computes, which the handler does not
    call. *)
Theorem payment_required_amount_string :
  (forall (W Res : Type) (body : @Endpoint W Res) (st : @state W),
     respond bare_request
       (fst (wrapper default_settings (PRICING !!! "direction")
               "Price direction prediction" None None None body
               [] (keyword bare_request) st))
     = PaymentRequired {|
         status_code := 402;
         content := {|
           error := "Payment Required";
           content_x402_version := 1;
           content_accepts := [ {|
             scheme := "exact";
             network := "base";
             maxAmountRequired := "0.01";
             resource := "http://testserver/predict/direction";
             description := "Price direction prediction";
             mimeType := "application/json";
             payTo := "0x0000000000000000000000000000000000000000";
             maxTimeoutSeconds := 300;
             asset_id := "USDC"
           |} ]
         |};
         response_headers := [("X-402-Version", "1"); ("X-402-Price", "0.01")]
       |})
  /\ (forall (W Res : Type)
             (body : BulkPredictionRequest -> pynum -> W -> result Res * W)
             (st : @state W),
        exists r,
          fst (post_predict_bulk default_settings body bare_request
                 (mkBulkPredictionRequest [BTC] D1 "direction") st)
          = PaymentRequired r
          /\ map maxAmountRequired (content_accepts (content r)) = ["0.01"])
  /\ generate_payment_request default_settings (PRICING !!! "direction")
       "http://testserver/predict/direction" "Price direction prediction" 300
     = Ok {|
         x402_version := 1;
         accepts := [ {|
           scheme := "exact";
           network := "eip155:8453";
           maxAmountRequired := "10000";
           resource := "http://testserver/predict/direction";
           description := "Price direction prediction";
           mimeType := "application/json";
           payTo := "0x0000000000000000000000000000000000000000";
           maxTimeoutSeconds := 300;
           asset_id :=
             "eip155:8453/erc20:0x833589fCD6eDb6E08f4c7C32D4f71b54bdA02913"
         |} ]
       |}.
Proof.
  split; [|split].
  - intros W Res body st. destruct st. vm_compute. reflexivity.
  - intros W Res body st. destruct st. eexists. split; vm_compute; reflexivity.
  - vm_compute. reflexivity.
Qed.

(** ** The amount of a requirement *)

(** The prices of the application are floats. *)
Lemma PRICING_floats (key : string) (v : pynum) :
  PRICING !! key = Some v -> ~ is_int v.
Proof.
  unfold PRICING. intros H.
  repeat match type of H with
  | <[?k := _]> _ !! _ = _ =>
      destruct (decide (k = key)) as [<-|?];
      [rewrite lookup_insert_eq in H; injection H as <-; exact (fun F => F)
      | rewrite lookup_insert_ne in H by assumption]
  end.
  rewrite lookup_empty in H. discriminate H.
Qed.

(** The cost of a bulk request of at most ten assets is a float. *)
Lemma bulk_cost_is_float (n : nat) :
  (n <= 10)%nat ->
  exists f,
    py_mul (PRICING !!! "bulk_per_asset") (PyInt (Z.of_nat n)) = Ok (PyFloat f).
Proof.
  intros Hn.
  assert (Hp : PRICING !!! "bulk_per_asset" = PyFloat 0.01)
    by (vm_compute; reflexivity).
  rewrite Hp. unfold py_mul.
  destruct (float_of_int (Z.of_nat n)) as [g|e] eqn:E; [cbn; eauto|].
  exfalso.
  do 11 (destruct n as [|n]; [vm_compute in E; discriminate E|]). lia.
Qed.

(** C8, as the code has it.  The amount of a requirement is the number that
    was given, unchanged: [X402PaymentRequired] stores its argument as it
    is, and the requirement that the wrapper raises for want of a proof
    carries the amount of the paywall.  In the application these numbers
    are floats in whole units of the asset: every price of [PRICING] is a
    float, and the requirement with which [POST /predict/bulk] answers a
    request without a payment header carries the float product of the price
    a piece and the number of assets.  The integer number of smallest
    units is what [generate_payment_request] computes from the amount, as
    [int(amount * 1_000_000)]. *)
Theorem requirement_amount_unchanged :
  (forall settings amount description network recipient token,
     exc_amount
       (X402PaymentRequired_init settings amount description
          network recipient token) = amount)
  /\ (forall settings (W Res : Type) amount description network recipient token
             (func : @Endpoint W Res) args kwargs (st : @state W),
        x402_enabled settings = true ->
        carries_no_proof (find_request args kwargs) ->
        exists exc,
          wrapper settings amount description network recipient token func
            args kwargs st
          = (Raise (ExnX402PaymentRequired exc), st)
          /\ exc_amount exc = amount)
  /\ (forall key v, PRICING !! key = Some v -> ~ is_int v)
  /\ (forall settings (W Res : Type)
             (body : BulkPredictionRequest -> pynum -> W -> result Res * W)
             request req (st : @state W),
        x402_enabled settings = true ->
        py_bool_opt (headers_get req "X-402-Payment") = false ->
        (List.length (assets request) <= 10)%nat ->
        exists exc f,
          predict_bulk settings body request req st
          = (Raise (ExnX402PaymentRequired exc), st)
          /\ py_mul (PRICING !!! "bulk_per_asset")
               (PyInt (Z.of_nat (List.length (assets request))))
             = Ok (PyFloat f)
          /\ exc_amount exc = PyFloat f)
  /\ (forall settings amount resource description validity_seconds units,
        (scaled ← py_mul amount (PyInt 1000000); py_int scaled) = Ok units ->
        exists pr,
          generate_payment_request settings amount resource description
            validity_seconds = Ok pr
          /\ map maxAmountRequired (accepts pr) = [str_int units]).
Proof.
  split; [reflexivity|]. split; [|split; [exact PRICING_floats|split]].
  - intros settings W Res amount description network recipient token func
      args kwargs st He Hn.
    eexists. split; [apply wrapper_no_proof; assumption | reflexivity].
  - intros settings W Res body request req st He Hh Hl.
    destruct (bulk_cost_is_float _ Hl) as [f Hf].
    eexists. exists f.
    unfold predict_bulk, mbind, M_bind, lift, raise.
    rewrite Hf, Hh, He. cbn [negb andb].
    split; [reflexivity|]. split; reflexivity.
  - intros settings amount resource description validity_seconds units Hu.
    unfold generate_payment_request.
    destruct (py_mul amount (PyInt 1000000)) as [scaled|e]; [|discriminate Hu].
    cbn in Hu |- *. rewrite Hu. eexists. split; reflexivity.
Qed.

(** The request of the scenario: one asset, no payment header, the default
    settings. *)
Lemma requirement_amount_unchanged_witness :
  x402_enabled default_settings = true
  /\ py_bool_opt (headers_get bare_request "X-402-Payment") = false
  /\ (List.length (assets (mkBulkPredictionRequest [BTC] D1 "direction"))
      <= 10)%nat
  /\ exists exc f,
       predict_bulk default_settings (fun _ _ calls => (Ok calls, S calls))
         (mkBulkPredictionRequest [BTC] D1 "direction") bare_request
         (mkState 0%nat [])
       = (Raise (ExnX402PaymentRequired exc), mkState 0%nat [])
       /\ py_mul (PRICING !!! "bulk_per_asset")
            (PyInt (Z.of_nat
                      (List.length
                         (assets (mkBulkPredictionRequest [BTC] D1 "direction")))))
          = Ok (PyFloat f)
       /\ exc_amount exc = PyFloat f.
Proof.
  assert (Hl : (List.length
                  (assets (mkBulkPredictionRequest [BTC] D1 "direction"))
                <= 10)%nat) by (cbn; lia).
  split; [reflexivity|]. split; [reflexivity|]. split; [exact Hl|].
  destruct requirement_amount_unchanged as (_ & _ & _ & H & _).
  exact (H default_settings nat nat (fun _ _ calls => (Ok calls, S calls))
           (mkBulkPredictionRequest [BTC] D1 "direction") bare_request
           (mkState 0%nat []) eq_refl eq_refl Hl).
Defined.

(** C8, as the specification states it, fails on a request that a client
    can send: the requirement with which [POST /predict/bulk] answers one
    asset sent without a payment header holds the float [0.01]. *)
Lemma predict_bulk_amount_is_float : ~ amounts_are_integers.
Proof.
  intros H.
  specialize (H default_settings nat nat (fun _ _ calls => (Ok calls, S calls))
                (mkBulkPredictionRequest [BTC] D1 "direction") bare_request
                (mkState 0%nat []) (mkState 0%nat [])
                (X402PaymentRequired_init default_settings (PyFloat 0.01)
                   "Bulk prediction for 1 assets" None None None)
                eq_refl eq_refl ltac:(cbn; lia)
                ltac:(vm_compute; reflexivity)).
  exact H.
Qed.
(** * Further properties of the code *)

Import Amounts Routes Lstm Networks.

(** ** More about the codec *)

(** Deciding a property of every character of a literal. *)
Ltac forall_chars tac :=
  match goal with
  | |- Forall _ ?l => let l' := eval vm_compute in l in change l with l'
  end;
  repeat (match goal with |- Forall _ _ => constructor end); tac.
Ltac scalar_chars :=
  forall_chars ltac:(split; [unfold is_codepoint; lia | reflexivity]).
Ltac ascii_chars := forall_chars ltac:(unfold is_ascii; lia).

Section CodecMore.


(** The bytes of a string: one to four for each character. *)
Lemma utf8_encode_cp_length (c : Z) (bs : pybytes) :
  utf8_encode_cp c = Ok bs -> (1 <= List.length bs <= 4)%nat.
Proof.
  unfold utf8_encode_cp.
  repeat match goal with |- context [if ?b then _ else _] => destruct b end;
    intros [= <-]; cbn; lia.
Qed.

Lemma utf8_encode_length (s : pystr) (bs : pybytes) :
  utf8_encode s = Ok bs ->
  (List.length s <= List.length bs <= 4 * List.length s)%nat.
Proof.
  revert bs. induction s as [|c s IH]; intros bs; cbn [utf8_encode].
  - intros [= <-]. cbn. lia.
  - destruct (utf8_encode_cp c) as [cb|] eqn:Hc; [|discriminate].
    destruct (utf8_encode s) as [rest|] eqn:Hs; [|discriminate].
    cbn. intros [= <-]. apply utf8_encode_cp_length in Hc.
    specialize (IH _ eq_refl). rewrite List.length_app. cbn [List.length]. lia.
Qed.

Lemma b64encode_length (bs : pybytes) :
  Z.of_nat (List.length (b64encode bs))
  = 4 * ((Z.of_nat (List.length bs) + 2) / 3).
Proof.
  induction bs as [|x|x y|x y z r IH] using list_ind3; try reflexivity.
  rewrite b64encode_3. cbn [List.length]. rewrite !Nat2Z.inj_succ, IH. dlia.
Qed.

Lemma b64encode_significant (bs : pybytes) :
  Forall is_byte bs -> Forall (fun c => is_significant c = true) (b64encode bs).
Proof.
  assert (Hd : forall i, 0 <= i < 64 -> is_significant (b2a i) = true).
  { intros i Hi. destruct (b2a_spec i Hi) as (Ha & _ & _).
    unfold is_significant, is_data. rewrite Ha. apply orb_true_r. }
  assert (H0 : is_byte 0) by (unfold is_byte; lia).
  induction bs as [|x|x y|x y z r IH] using list_ind3; intros Hb.
  - constructor.
  - inversion_clear Hb as [|? ? Hx _].
    destruct (sextets_range x 0 0 Hx H0 H0) as (R1 & R2 & _).
    rewrite b64encode_1.
    repeat (match goal with |- Forall _ _ => constructor end); auto.
  - inversion_clear Hb as [|? ? Hx Hb']. inversion_clear Hb' as [|? ? Hy _].
    destruct (sextets_range x y 0 Hx Hy H0) as (R1 & R2 & R3 & _).
    rewrite b64encode_2.
    repeat (match goal with |- Forall _ _ => constructor end); auto.
  - inversion_clear Hb as [|? ? Hx Hb']. inversion_clear Hb' as [|? ? Hy Hb].
    inversion_clear Hb as [|? ? Hz Hr].
    destruct (sextets_range x y z Hx Hy Hz) as (R1 & R2 & R3 & R4).
    rewrite b64encode_3. repeat (constructor; [auto|]). auto.
Qed.

(** X1. On [bytes] the encoder never fails, and decoding its output is
    decoding the bytes as UTF-8: the text of the bytes, or
    [UnicodeDecodeError] when they are not UTF-8. *)
Theorem safe_base64_bytes_roundtrip (b : pybytes) :
  Forall is_byte b ->
  exists encoded,
    safe_base64_encode (Bytes b) = Ok encoded
    /\ base64_b64decode encoded = Ok b
    /\ safe_base64_decode encoded = utf8_decode b.
Proof.
  intros Hb. exists (b64encode b). split; [|split].
  - apply safe_base64_encode_bytes, Hb.
  - apply base64_b64decode_b64encode, Hb.
  - unfold safe_base64_decode. rewrite base64_b64decode_b64encode by exact Hb.
    reflexivity.
Qed.

Lemma safe_base64_bytes_roundtrip_witness :
  Forall is_byte [0xFF; 0x00; 0x41]
  /\ exists encoded,
       safe_base64_encode (Bytes [0xFF; 0x00; 0x41]) = Ok encoded
       /\ base64_b64decode encoded = Ok [0xFF; 0x00; 0x41]
       /\ safe_base64_decode encoded = utf8_decode [0xFF; 0x00; 0x41].
Proof.
  assert (H : Forall is_byte [0xFF; 0x00; 0x41])
    by (repeat constructor; unfold is_byte; lia).
  split; [exact H | exact (safe_base64_bytes_roundtrip _ H)].
Defined.

(** X2. The encoding of a string is transport-safe and of a known size:
    its characters are letters of the base64 alphabet and pads, there are
    four of them for every three bytes of the UTF-8 form (the last group
    padded), hence at most [4 * ceil(4n/3)] for a string of [n]
    characters. *)
Theorem safe_base64_encode_shape (p : pystr) (encoded : pystr) :
  Forall is_scalar p ->
  safe_base64_encode (Str p) = Ok encoded ->
  Forall (fun c => is_significant c = true) encoded
  /\ Forall is_ascii encoded
  /\ (exists bs, utf8_encode p = Ok bs
                 /\ Z.of_nat (List.length encoded)
                    = 4 * ((Z.of_nat (List.length bs) + 2) / 3))
  /\ 4 * ((Z.of_nat (List.length p) + 2) / 3)
     <= Z.of_nat (List.length encoded)
     <= 4 * ((4 * Z.of_nat (List.length p) + 2) / 3).
Proof.
  intros Hp He. destruct (utf8_roundtrip p Hp) as (bs & Hu & Hb & _).
  unfold safe_base64_encode, base64_b64encode in He. rewrite Hu in He. cbn in He.
  rewrite utf8_decode_ascii in He by (apply b64encode_ascii, Hb).
  injection He as <-. pose proof (utf8_encode_length _ _ Hu) as Hl.
  pose proof (b64encode_length bs) as Hlen.
  repeat split.
  - apply b64encode_significant, Hb.
  - apply b64encode_ascii, Hb.
  - exists bs. split; [exact Hu | exact Hlen].
  - rewrite Hlen. dlia.
  - rewrite Hlen. dlia.
Qed.

Lemma safe_base64_encode_shape_witness :
  Forall is_scalar [0x20AC; 0x41]
  /\ safe_base64_encode (Str [0x20AC; 0x41]) = Ok (lit "4oKsQQ==")
  /\ Z.of_nat (List.length (lit "4oKsQQ==")) <= 4 * ((4 * 2 + 2) / 3).
Proof.
  assert (H : Forall is_scalar [0x20AC; 0x41]) by scalar_chars.
  split; [exact H|]. split; [reflexivity|].
  exact (proj2 (proj2 (proj2 (proj2
    (safe_base64_encode_shape [0x20AC; 0x41] (lit "4oKsQQ==") H eq_refl))))).
Defined.

Lemma utf8_encode_cp_surrogate (c : Z) :
  is_codepoint c ->
  if is_surrogate c then utf8_encode_cp c = Raise UnicodeEncodeError
  else exists bs, utf8_encode_cp c = Ok bs /\ Forall is_byte bs.
Proof.
  intros Hc. destruct (is_surrogate c) eqn:Hs.
  - unfold utf8_encode_cp. rewrite Hs. unfold is_surrogate in Hs.
    apply andb_true_iff in Hs as [H1 H2].
    apply Z.leb_le in H1. apply Z.leb_le in H2.
    destruct (Z.ltb_spec c 0x80); [lia|].
    destruct (Z.ltb_spec c 0x800); [lia|].
    destruct (Z.ltb_spec c 0x10000); [reflexivity | lia].
  - assert (Hsc : is_scalar c) by (split; assumption).
    destruct (utf8_encode_cp_total c Hsc) as [bs Hbs]. exists bs.
    split; [exact Hbs|].
    exact (proj2 (utf8_decode_encode_cp c bs [] Hsc Hbs)).
Qed.

(** X3. The encoder fails on a string exactly when the string holds a
    surrogate code point, and then with [UnicodeEncodeError]; on every other
    string it returns. *)
Theorem safe_base64_encode_error (p : pystr) :
  Forall is_codepoint p ->
  (safe_base64_encode (Str p) = Raise UnicodeEncodeError
   <-> Exists (fun c => is_surrogate c = true) p)
  /\ ((exists encoded, safe_base64_encode (Str p) = Ok encoded)
      <-> Forall (fun c => is_surrogate c = false) p).
Proof.
  intros Hp.
  assert (H : if existsb is_surrogate p
              then utf8_encode p = Raise UnicodeEncodeError
              else exists bs, utf8_encode p = Ok bs /\ Forall is_byte bs).
  { induction Hp as [|c p Hc Hp IH]; cbn [existsb utf8_encode].
    - exists []. split; [reflexivity | constructor].
    - pose proof (utf8_encode_cp_surrogate c Hc) as Hcp.
      destruct (is_surrogate c); cbn [orb].
      + rewrite Hcp. reflexivity.
      + destruct Hcp as (cb & Hcb & Hcbb). rewrite Hcb. cbn.
        destruct (existsb is_surrogate p).
        * rewrite IH. reflexivity.
        * destruct IH as (bs & Hbs & Hbb). rewrite Hbs. cbn.
          exists (cb ++ bs). split; [reflexivity|]. apply Forall_app; auto. }
  assert (Hex : existsb is_surrogate p = true
                <-> Exists (fun c => is_surrogate c = true) p).
  { rewrite existsb_exists, List.Exists_exists. reflexivity. }
  assert (Hall : existsb is_surrogate p = false
                 <-> Forall (fun c => is_surrogate c = false) p).
  { rewrite List.Forall_forall. split.
    - intros Hf c Hin. destruct (is_surrogate c) eqn:Hs; [|reflexivity].
      assert (existsb is_surrogate p = true)
        by (apply existsb_exists; eauto).
      congruence.
    - intros Hf. destruct (existsb is_surrogate p) eqn:He; [|reflexivity].
      apply existsb_exists in He as (c & Hin & Hs).
      rewrite (Hf c Hin) in Hs. discriminate Hs. }
  unfold safe_base64_encode, base64_b64encode.
  destruct (existsb is_surrogate p).
  - rewrite H. cbn. split; split.
    + intros _. apply Hex. reflexivity.
    + reflexivity.
    + intros [e He]. discriminate He.
    + intros Hf. apply Hall in Hf. discriminate Hf.
  - destruct H as (bs & Hbs & Hbb). rewrite Hbs. cbn.
    rewrite utf8_decode_ascii by (apply b64encode_ascii, Hbb). split; split.
    + discriminate.
    + intros He. apply Hex in He. discriminate He.
    + intros _. apply Hall. reflexivity.
    + intros _. eauto.
Qed.

Lemma safe_base64_encode_error_witness :
  Forall is_codepoint [0x41; 0xDFFF]
  /\ safe_base64_encode (Str [0x41; 0xDFFF]) = Raise UnicodeEncodeError.
Proof.
  assert (H : Forall is_codepoint [0x41; 0xDFFF])
    by (repeat constructor; unfold is_codepoint; lia).
  split; [exact H|].
  apply (proj1 (safe_base64_encode_error _ H)).
  right. left. reflexivity.
Defined.

(** X4. The decoder reads through characters that are not base64: an
    ASCII string whose significant characters are the encoding of [p], with
    line breaks, blanks or any other such characters among them, decodes to
    [p]. *)
Theorem safe_base64_decode_skips (p s encoded : pystr) :
  Forall is_scalar p ->
  safe_base64_encode (Str p) = Ok encoded ->
  Forall is_ascii s ->
  List.filter is_significant s = encoded ->
  safe_base64_decode s = Ok p.
Proof.
  intros Hp He Hs Hf. destruct (utf8_roundtrip p Hp) as (bs & Hu & Hb & Hd).
  unfold safe_base64_encode, base64_b64encode in He. rewrite Hu in He. cbn in He.
  rewrite utf8_decode_ascii in He by (apply b64encode_ascii, Hb).
  injection He as <-.
  unfold safe_base64_decode, base64_b64decode.
  rewrite ascii_encode_ascii by exact Hs. cbn.
  rewrite a2b_base64_skip, Hf, a2b_base64_b64encode by exact Hb. cbn. exact Hd.
Qed.

Lemma safe_base64_decode_skips_witness :
  Forall is_scalar (lit "hello world")
  /\ safe_base64_encode (Str (lit "hello world")) = Ok (lit "aGVsbG8gd29ybGQ=")
  /\ Forall is_ascii ([10] ++ lit "aGVs bG8g" ++ [13; 10] ++ lit "d29y*bGQ=" ++ [10])
  /\ safe_base64_decode
       ([10] ++ lit "aGVs bG8g" ++ [13; 10] ++ lit "d29y*bGQ=" ++ [10])
     = Ok (lit "hello world").
Proof.
  assert (Hp : Forall is_scalar (lit "hello world")).
  { scalar_chars. }
  assert (Hs : Forall is_ascii
                 ([10] ++ lit "aGVs bG8g" ++ [13; 10] ++ lit "d29y*bGQ=" ++ [10])).
  { ascii_chars. }
  split; [exact Hp|]. split; [reflexivity|]. split; [exact Hs|].
  exact (safe_base64_decode_skips _ _ _ Hp eq_refl Hs eq_refl).
Defined.

(** At the start of a quad the decoder has forgotten what came before. *)
Lemma a2b_base64_start (cs : pybytes) (lc p : Z) :
  a2b_base64 cs 0 lc p = a2b_base64 cs 0 0 0.
Proof.
  induction cs as [|c cs IH]; [reflexivity|]. cbn [a2b_base64].
  destruct (c =? BASE64_PAD); cbn [Z.leb Z.compare].
  - exact IH.
  - destruct (a2b c); [reflexivity | exact IH].
Qed.

(** The decoder on an encoding followed by more input: a padded encoding
    ends the parse, an unpadded one is continued. *)
Lemma a2b_base64_b64encode_app (bs tail : pybytes) (lc : Z) :
  Forall is_byte bs ->
  a2b_base64 (b64encode bs ++ tail) 0 lc 0 =
    if Z.of_nat (List.length bs) mod 3 =? 0
    then app bs <$> a2b_base64 tail 0 0 0
    else Ok bs.
Proof.
  intros Hb. revert lc.
  induction bs as [|x|x y|x y z r IH] using list_ind3; intros lc.
  - cbn [b64encode app List.length]. cbn. rewrite a2b_base64_start.
    destruct (a2b_base64 tail 0 0 0); reflexivity.
  - inversion_clear Hb as [|? ? Hx _]. rewrite b64encode_1. cbn [app].
    assert (H0 : is_byte 0) by (unfold is_byte; lia).
    destruct (sextets_range x 0 0 Hx H0 H0) as (R1 & R2 & _).
    destruct (octets_spec x 0 0 Hx H0 H0) as (O1 & _).
    cbv zeta in O1. unfold octet1 in O1.
    destruct (b2a_spec _ R1) as (A1 & P1 & _).
    destruct (b2a_spec _ R2) as (A2 & P2 & _).
    rewrite (a2b_base64_data _ _ _ _ _ _ P1 A1). cbn [Z.eqb Pos.eqb].
    rewrite (a2b_base64_data _ _ _ _ _ _ P2 A2). cbn [Z.eqb Pos.eqb].
    rewrite O1. rewrite !a2b_base64_pad. reflexivity.
  - inversion_clear Hb as [|? ? Hx Hb']. inversion_clear Hb' as [|? ? Hy _].
    rewrite b64encode_2. cbn [app].
    assert (H0 : is_byte 0) by (unfold is_byte; lia).
    destruct (sextets_range x y 0 Hx Hy H0) as (R1 & R2 & R3 & _).
    destruct (octets_spec x y 0 Hx Hy H0) as (O1 & O2 & _).
    cbv zeta in O1, O2. unfold octet1, octet2 in O1, O2.
    destruct (b2a_spec _ R1) as (A1 & P1 & _).
    destruct (b2a_spec _ R2) as (A2 & P2 & _).
    destruct (b2a_spec _ R3) as (A3 & P3 & _).
    rewrite (a2b_base64_data _ _ _ _ _ _ P1 A1). cbn [Z.eqb Pos.eqb].
    rewrite (a2b_base64_data _ _ _ _ _ _ P2 A2). cbn [Z.eqb Pos.eqb].
    rewrite (a2b_base64_data _ _ _ _ _ _ P3 A3). cbn [Z.eqb Pos.eqb].
    rewrite O1, O2. rewrite a2b_base64_pad. reflexivity.
  - inversion_clear Hb as [|? ? Hx Hb']. inversion_clear Hb' as [|? ? Hy Hb].
    inversion_clear Hb as [|? ? Hz Hr].
    rewrite b64encode_3. cbn [app].
    rewrite a2b_base64_quad by assumption. rewrite (IH Hr).
    cbn [List.length]. rewrite !Nat2Z.inj_succ.
    replace (Z.succ (Z.succ (Z.succ (Z.of_nat (List.length r)))) mod 3)
      with (Z.of_nat (List.length r) mod 3) by dlia.
    destruct (Z.of_nat (List.length r) mod 3 =? 0); [|reflexivity].
    destruct (a2b_base64 tail 0 0 0); reflexivity.
Qed.

Lemma utf8_decode_app (s : pystr) (bs rest : pybytes) :
  Forall is_scalar s -> utf8_encode s = Ok bs ->
  utf8_decode (bs ++ rest) = app s <$> utf8_decode rest.
Proof.
  intros Hs. revert bs. induction Hs as [|c s Hc Hs IH]; intros bs.
  - intros [= <-]. cbn. destruct (utf8_decode rest); reflexivity.
  - cbn [utf8_encode].
    destruct (utf8_encode_cp c) as [cb|] eqn:Hcb; [|discriminate].
    destruct (utf8_encode s) as [sb|] eqn:Hsb; [|discriminate].
    cbn. intros [= <-]. rewrite <- List.app_assoc.
    rewrite (proj1 (utf8_decode_encode_cp c cb (sb ++ rest) Hc Hcb)).
    rewrite (IH sb eq_refl). destruct (utf8_decode rest); reflexivity.
Qed.

(** X5. A padded encoding ends the parse: when the UTF-8 form of [p] is no
    multiple of three bytes long, whatever ASCII text follows the encoding
    of [p] is ignored, another encoded proof included. *)
Theorem safe_base64_decode_trailing (p encoded tail : pystr) (bs : pybytes) :
  Forall is_scalar p ->
  utf8_encode p = Ok bs ->
  Z.of_nat (List.length bs) mod 3 <> 0 ->
  safe_base64_encode (Str p) = Ok encoded ->
  Forall is_ascii tail ->
  safe_base64_decode (encoded ++ tail) = Ok p.
Proof.
  intros Hp Hu Hn He Ht. destruct (utf8_roundtrip p Hp) as (bs' & Hu' & Hb & Hd).
  rewrite Hu in Hu'. injection Hu' as <-.
  unfold safe_base64_encode, base64_b64encode in He. rewrite Hu in He. cbn in He.
  rewrite utf8_decode_ascii in He by (apply b64encode_ascii, Hb).
  injection He as <-.
  unfold safe_base64_decode, base64_b64decode.
  rewrite ascii_encode_ascii
    by (apply Forall_app; split; [apply b64encode_ascii, Hb | exact Ht]).
  cbn. rewrite a2b_base64_b64encode_app by exact Hb.
  destruct (Z.eqb_spec (Z.of_nat (List.length bs) mod 3) 0); [contradiction|].
  cbn. exact Hd.
Qed.

Lemma safe_base64_decode_trailing_witness :
  Forall is_scalar (lit "a")
  /\ utf8_encode (lit "a") = Ok [97]
  /\ Z.of_nat (List.length [97]) mod 3 <> 0
  /\ safe_base64_encode (Str (lit "a")) = Ok (lit "YQ==")
  /\ Forall is_ascii (lit "Yg==")
  /\ safe_base64_decode (lit "YQ==" ++ lit "Yg==") = Ok (lit "a").
Proof.
  assert (Hp : Forall is_scalar (lit "a")).
  { scalar_chars. }
  assert (Ht : Forall is_ascii (lit "Yg==")).
  { ascii_chars. }
  assert (Hn : Z.of_nat (List.length [97]) mod 3 <> 0) by (cbn; discriminate).
  split; [exact Hp|]. split; [reflexivity|]. split; [exact Hn|].
  split; [reflexivity|]. split; [exact Ht|].
  exact (safe_base64_decode_trailing (lit "a") (lit "YQ==") (lit "Yg==") [97]
           Hp eq_refl Hn eq_refl Ht).
Defined.

(** X6. Unpadded encodings concatenate: when the UTF-8 form of [p] is a
    multiple of three bytes long, the encoding of [p] followed by the
    encoding of [q] decodes to [p] followed by [q]. *)
Theorem safe_base64_decode_concat (p q ep eq_ : pystr) (bs : pybytes) :
  Forall is_scalar p -> Forall is_scalar q ->
  utf8_encode p = Ok bs ->
  Z.of_nat (List.length bs) mod 3 = 0 ->
  safe_base64_encode (Str p) = Ok ep ->
  safe_base64_encode (Str q) = Ok eq_ ->
  safe_base64_decode (ep ++ eq_) = Ok (p ++ q).
Proof.
  intros Hp Hq Hu Hn Hep Heq.
  destruct (utf8_roundtrip p Hp) as (bs' & Hu' & Hb & Hd).
  rewrite Hu in Hu'. injection Hu' as <-.
  destruct (utf8_roundtrip q Hq) as (bq & Huq & Hbq & Hdq).
  unfold safe_base64_encode, base64_b64encode in Hep, Heq.
  rewrite Hu in Hep. rewrite Huq in Heq. cbn in Hep, Heq.
  rewrite utf8_decode_ascii in Hep by (apply b64encode_ascii, Hb).
  rewrite utf8_decode_ascii in Heq by (apply b64encode_ascii, Hbq).
  injection Hep as <-. injection Heq as <-.
  unfold safe_base64_decode, base64_b64decode.
  rewrite ascii_encode_ascii
    by (apply Forall_app; split; apply b64encode_ascii; assumption).
  cbn. rewrite a2b_base64_b64encode_app by exact Hb. rewrite Hn. cbn.
  rewrite a2b_base64_b64encode by exact Hbq. cbn.
  rewrite (utf8_decode_app p bs bq Hp Hu), Hdq. reflexivity.
Qed.

Lemma safe_base64_decode_concat_witness :
  Forall is_scalar (lit "abc") /\ Forall is_scalar (lit "d")
  /\ utf8_encode (lit "abc") = Ok [97; 98; 99]
  /\ Z.of_nat (List.length [97; 98; 99]) mod 3 = 0
  /\ safe_base64_decode (lit "YWJj" ++ lit "ZA==") = Ok (lit "abc" ++ lit "d").
Proof.
  assert (Hp : Forall is_scalar (lit "abc")).
  { scalar_chars. }
  assert (Hq : Forall is_scalar (lit "d")).
  { scalar_chars. }
  split; [exact Hp|]. split; [exact Hq|]. split; [reflexivity|].
  split; [reflexivity|].
  exact (safe_base64_decode_concat (lit "abc") (lit "d") (lit "YWJj") (lit "ZA==")
           [97; 98; 99] Hp Hq eq_refl eq_refl eq_refl eq_refl).
Defined.

End CodecMore.

(** ** More about the gate *)

Section GateMore.

Context {W Res : Type}.
Variable settings : Settings.
Variables (amount : pynum) (description : string).
Variables (network recipient token : option string).
Variable func : @Endpoint W Res.

#[local] Abbreviation gate :=
  (wrapper settings amount description network recipient token func).
#[local] Abbreviation requirement :=
  (X402PaymentRequired_init settings amount description network recipient token).

(** X7. With gating enabled the wrapper has four outcomes and no other: the
    [AttributeError] of an object without headers, the payment requirement,
    the 402 of a refused proof, and the call of the protected operation.
    The operation is called only with a non-empty proof read from the
    request that the validator has accepted, and at most once; in the three
    other outcomes its world is untouched. *)
Theorem wrapper_outcomes (args : list pyobj) (kwargs : gmap string pyobj)
    (st : state) :
  x402_enabled settings = true ->
  gate args kwargs st = (Raise (AttributeError "headers"), st)
  \/ gate args kwargs st = (Raise (ExnX402PaymentRequired requirement), st)
  \/ (exists proof,
        read_payment_proof (find_request args kwargs) = Ok (Some proof)
        /\ py_bool_str proof = true
        /\ _validate_payment_proof settings proof amount = Ok false
        /\ gate args kwargs st =
             (Raise (HTTPException 402 "Invalid payment proof"),
              {| world := world st;
                 trace := trace st ++ [EvValidate proof amount] |}))
  \/ (exists proof,
        read_payment_proof (find_request args kwargs) = Ok (Some proof)
        /\ py_bool_str proof = true
        /\ _validate_payment_proof settings proof amount = Ok true
        /\ gate args kwargs st =
             (fst (func args kwargs (world st)),
              {| world := snd (func args kwargs (world st));
                 trace := trace st
                          ++ [EvValidate proof amount; EvInvoke args kwargs] |})).
Proof.
  intros He. unfold wrapper, validate, mbind, M_bind, lift, log, raise.
  rewrite He. cbn [negb].
  destruct (read_payment_proof (find_request args kwargs)) as [[proof|]|e] eqn:Hr.
  - destruct (py_bool_str proof) eqn:Hp; cbn [negb].
    + destruct (_validate_payment_proof_returns settings proof amount) as [b Hb].
      rewrite Hb. destruct b; cbn [negb].
      * right. right. right. exists proof. repeat split; auto.
        rewrite call_spec. cbn. rewrite <- List.app_assoc. reflexivity.
      * right. right. left. exists proof. repeat split; auto.
    + right. left. reflexivity.
  - right. left. reflexivity.
  - left. unfold read_payment_proof in Hr.
    destruct (find_request args kwargs) as [o|]; [|discriminate Hr].
    destruct o; cbn in Hr; try discriminate Hr.
    + destruct (py_bool_opt (headers_get r "X-402-Payment")); discriminate Hr.
    + injection Hr as <-. reflexivity.
    + injection Hr as <-. reflexivity.
Qed.

(** X8. In debug mode the validator is switched off: a request that
    presents any non-empty proof, a single character included, is served. *)
Theorem wrapper_debug_serves (args : list pyobj) (kwargs : gmap string pyobj)
    (proof : string) (st : state) :
  x402_enabled settings = true ->
  debug settings = true ->
  presents (find_request args kwargs) proof ->
  gate args kwargs st =
    (fst (func args kwargs (world st)),
     {| world := snd (func args kwargs (world st));
        trace := trace st ++ [EvValidate proof amount; EvInvoke args kwargs] |}).
Proof.
  intros He Hd Hp. apply wrapper_accepted; [exact He | exact Hp |].
  destruct Hp as [Hp _]. unfold _validate_payment_proof. rewrite Hp, Hd.
  reflexivity.
Qed.

(** X9. The requirement never loses a field to an empty override: each of
    network, recipient and token is the override when that is a non-empty
    string and the setting otherwise, so that with the three settings filled
    in, no requirement has an empty network, recipient or token. *)
Theorem X402PaymentRequired_fields_filled :
  x402_network settings <> "" ->
  x402_recipient_address settings <> "" ->
  x402_token settings <> "" ->
  exc_network requirement <> ""
  /\ exc_recipient requirement <> ""
  /\ exc_token requirement <> ""
  /\ (py_bool_opt network = false ->
      exc_network requirement = x402_network settings)
  /\ (py_bool_opt recipient = false ->
      exc_recipient requirement = x402_recipient_address settings)
  /\ (py_bool_opt token = false ->
      exc_token requirement = x402_token settings).
Proof.
  assert (H : forall o d, d <> "" ->
                py_or o d <> ""
                /\ (py_bool_opt o = false -> py_or o d = d)).
  { intros [[|a s]|] d Hd; cbn; split; auto; discriminate. }
  intros Hn Hr Ht. cbn [X402PaymentRequired_init exc_network exc_recipient exc_token].
  destruct (H network _ Hn), (H recipient _ Hr), (H token _ Ht). tauto.
Qed.

End GateMore.

Lemma wrapper_outcomes_witness :
  x402_enabled default_settings = true
  /\ exists proof,
       _validate_payment_proof default_settings proof (PyFloat 0.01) = Ok false
       /\ wrapper default_settings (PyFloat 0.01) "Price direction prediction"
            None None None counting_operation []
            (keyword (mkRequest (fun _ => Some "0xdeadbeef") "/"))
            (mkState 0%nat [])
          = (Raise (HTTPException 402 "Invalid payment proof"),
             mkState 0%nat [EvValidate proof (PyFloat 0.01)]).
Proof.
  split; [reflexivity|].
  destruct (wrapper_outcomes default_settings (PyFloat 0.01)
              "Price direction prediction" None None None counting_operation []
              (keyword (mkRequest (fun _ => Some "0xdeadbeef") "/"))
              (mkState 0%nat []) eq_refl)
    as [H|[H|[(proof & Hr & Hp & Hv & H)|(proof & Hr & Hp & Hv & H)]]].
  - discriminate H.
  - discriminate H.
  - exists proof. split; [exact Hv | exact H].
  - injection Hr as <-. discriminate Hv.
Defined.

Lemma wrapper_debug_serves_witness :
  x402_enabled (mkSettings true "0x0" "base" "USDC" "" "" "" true 300 true) = true
  /\ debug (mkSettings true "0x0" "base" "USDC" "" "" "" true 300 true) = true
  /\ presents
       (find_request [] (keyword (mkRequest (fun _ => Some "x") "/"))) "x"
  /\ fst (wrapper (mkSettings true "0x0" "base" "USDC" "" "" "" true 300 true)
            (PyFloat 0.01) "Price direction prediction" None None None
            counting_operation []
            (keyword (mkRequest (fun _ => Some "x") "/")) (mkState 0%nat []))
     = Ok 0%nat.
Proof.
  assert (Hp : presents
                 (find_request [] (keyword (mkRequest (fun _ => Some "x") "/")))
                 "x") by (split; [reflexivity | left; reflexivity]).
  split; [reflexivity|]. split; [reflexivity|]. split; [exact Hp|].
  rewrite (wrapper_debug_serves
             (mkSettings true "0x0" "base" "USDC" "" "" "" true 300 true)
             (PyFloat 0.01) "Price direction prediction" None None None
             counting_operation [] (keyword (mkRequest (fun _ => Some "x") "/"))
             "x" (mkState 0%nat []) eq_refl eq_refl Hp).
  reflexivity.
Defined.

Lemma X402PaymentRequired_fields_filled_witness :
  x402_network default_settings <> ""
  /\ exc_recipient
       (X402PaymentRequired_init default_settings (PyFloat 0.01) "d"
          None (Some "") None)
     = x402_recipient_address default_settings.
Proof.
  split; [discriminate|].
  apply (X402PaymentRequired_fields_filled default_settings (PyFloat 0.01) "d"
           None (Some "") None);
    [discriminate | discriminate | discriminate | reflexivity].
Defined.

(** ** The verdict of the gate outside debug mode *)

Section Verdict.

Context {W Res : Type}.
Variable settings : Settings.
Variables (amount : pynum) (description : string).
Variables (network recipient token : option string).
Variable func : @Endpoint W Res.

(** X10. Outside debug mode the gate decides on the length of the proof
    alone: a request that presents a proof of more than 20 characters is
    served, whatever the characters are, and one that presents a shorter
    proof is refused with status 402. *)
Theorem wrapper_verdict_by_length (args : list pyobj)
    (kwargs : gmap string pyobj) (proof : string) (st : state) :
  x402_enabled settings = true ->
  debug settings = false ->
  presents (find_request args kwargs) proof ->
  wrapper settings amount description network recipient token func
    args kwargs st
  = if (20 <? String.length proof)%nat then
      (fst (func args kwargs (world st)),
       {| world := snd (func args kwargs (world st));
          trace := trace st ++ [EvValidate proof amount; EvInvoke args kwargs] |})
    else
      (Raise (HTTPException 402 "Invalid payment proof"),
       {| world := world st; trace := trace st ++ [EvValidate proof amount] |}).
Proof.
  intros He Hd Hp.
  destruct (Nat.ltb_spec 20 (String.length proof)) as [Hl|Hl].
  - apply wrapper_accepted; [exact He | exact Hp |].
    destruct (_validate_payment_proof_returns settings proof amount) as [[] Hb];
      [exact Hb|].
    apply _validate_payment_proof_false_iff in Hb.
    destruct Hb as [->|(_ & _ & Hb)]; [cbn in Hl; lia | lia].
  - apply wrapper_rejected; [exact He | exact Hp |].
    apply _validate_payment_proof_false_iff. right. auto.
Qed.

End Verdict.

Lemma wrapper_verdict_by_length_witness :
  x402_enabled default_settings = true
  /\ debug default_settings = false
  /\ presents
       (find_request []
          (keyword (mkRequest (fun _ => Some "not a payment at all") "/")))
       "not a payment at all"
  /\ fst (wrapper default_settings (PyFloat 0.5) "Strategy backtesting"
            None None None counting_operation []
            (keyword (mkRequest (fun _ => Some "not a payment at all") "/"))
            (mkState 0%nat []))
     = Raise (HTTPException 402 "Invalid payment proof")
  /\ fst (wrapper default_settings (PyFloat 0.5) "Strategy backtesting"
            None None None counting_operation []
            (keyword (mkRequest (fun _ => Some "not a payment at all!") "/"))
            (mkState 0%nat []))
     = Ok 0%nat.
Proof.
  assert (Hp : forall p, py_bool_str p = true ->
             presents
               (find_request [] (keyword (mkRequest (fun _ => Some p) "/"))) p)
    by (intros p H; split; [exact H | left; reflexivity]).
  split; [reflexivity|]. split; [reflexivity|].
  split; [exact (Hp "not a payment at all" eq_refl)|]. split.
  - rewrite (wrapper_verdict_by_length default_settings (PyFloat 0.5)
               "Strategy backtesting" None None None counting_operation []
               _ _ (mkState 0%nat []) eq_refl eq_refl
               (Hp "not a payment at all" eq_refl)).
    reflexivity.
  - rewrite (wrapper_verdict_by_length default_settings (PyFloat 0.5)
               "Strategy backtesting" None None None counting_operation []
               _ _ (mkState 0%nat []) eq_refl eq_refl
               (Hp "not a payment at all!" eq_refl)).
    reflexivity.
Defined.

(** ** Amounts of whole cents in smallest units *)

Lemma smallest_units_cents (c : Z) :
  1 <= c <= 10000 ->
  exists units,
    smallest_units (cents c) = Ok units
    /\ (units = c * 10000 \/ units = c * 10000 - 1).
Proof.
  intros Hc.
  pose proof (all_below_spec (Z.to_nat 10001)
                (fun c => match smallest_units (cents c) with
                          | Ok u => (u =? c * 10000) || (u =? c * 10000 - 1)
                          | Raise _ => false
                          end)
                ltac:(vm_compute; reflexivity) c ltac:(lia)) as H.
  cbv beta in H. destruct (smallest_units (cents c)) as [u|e]; [|discriminate H].
  exists u. split; [reflexivity|].
  apply orb_true_iff in H. rewrite !Z.eqb_eq in H. exact H.
Qed.

Lemma generate_payment_request_units (settings : Settings) (amount : pynum)
    (resource description : string) (validity_seconds units : Z) :
  smallest_units amount = Ok units ->
  exists pr,
    generate_payment_request settings amount resource description
      validity_seconds = Ok pr
    /\ List.map maxAmountRequired (accepts pr) = [str_int units].
Proof.
  unfold smallest_units, generate_payment_request. intros Hu.
  destruct (py_mul amount (PyInt 1000000)) as [scaled|e]; [|discriminate Hu].
  cbn in Hu |- *. rewrite Hu. cbn. eauto.
Qed.

(** X11. For a price of a whole number of cents up to 100 dollars, the
    payment request is generated and asks for the price in millionths of a
    dollar or for one millionth less: the truncation of line 158 never
    rounds up, and it loses one unit where the product falls just under the
    integer, as it does for 2.01. *)
Theorem generate_payment_request_cents (settings : Settings) (c : Z)
    (resource description : string) (validity_seconds : Z) :
  1 <= c <= 10000 ->
  exists pr units,
    generate_payment_request settings (cents c) resource description
      validity_seconds = Ok pr
    /\ List.map maxAmountRequired (accepts pr) = [str_int units]
    /\ (units = c * 10000 \/ units = c * 10000 - 1)
    /\ (c = 201 -> units = 2009999).
Proof.
  intros Hc. destruct (smallest_units_cents c Hc) as (units & Hu & Hr).
  destruct (generate_payment_request_units settings _ resource description
              validity_seconds units Hu) as (pr & Hg & Hm).
  exists pr, units. repeat split; auto.
  intros ->. vm_compute in Hu. congruence.
Qed.

Lemma generate_payment_request_cents_witness :
  1 <= 201 <= 10000
  /\ exists pr,
       generate_payment_request default_settings (PyFloat 2.01)
         "/predict/direction" "" 300 = Ok pr
       /\ List.map maxAmountRequired (accepts pr) = ["2009999"].
Proof.
  split; [lia|].
  destruct (generate_payment_request_cents default_settings 201
              "/predict/direction" "" 300 ltac:(lia))
    as (pr & units & Hg & Hm & _ & Hu).
  exists pr. split; [exact Hg|]. rewrite Hm, (Hu eq_refl). reflexivity.
Defined.

(** ** Chain and token of the known networks *)

Lemma known_networks_cases (network : string) :
  In network known_networks ->
  network = "base" \/ network = "base-sepolia" \/ network = "ethereum"
  \/ network = "arbitrum" \/ network = "optimism" \/ network = "polygon".
Proof.
  unfold known_networks. cbn [In]. intuition auto.
Qed.

(** X12. Among the networks of the chain table, the chain id is that of Base
    only for ["base"], but the token contract is that of Base for ["base"]
    and for ["base-sepolia"], which has no entry among the USDC addresses:
    under the setting ["base-sepolia"] the payment request names the test
    chain 84532 together with the USDC contract of the main chain. *)
Theorem base_sepolia_gets_base_token (settings : Settings) :
  In (x402_network settings) known_networks ->
  (_get_chain_id (x402_network settings) = 8453
   <-> x402_network settings = "base")
  /\ (_get_token_address settings = "0x833589fCD6eDb6E08f4c7C32D4f71b54bdA02913"
      <-> x402_network settings = "base"
          \/ x402_network settings = "base-sepolia")
  /\ (x402_network settings = "base-sepolia" ->
      forall amount resource description validity_seconds units,
        smallest_units amount = Ok units ->
        exists pr,
          generate_payment_request settings amount resource description
            validity_seconds = Ok pr
          /\ List.map network (accepts pr) = ["eip155:84532"]
          /\ List.map asset_id (accepts pr)
             = ["eip155:84532/erc20:0x833589fCD6eDb6E08f4c7C32D4f71b54bdA02913"]).
Proof.
  intros Hk. apply known_networks_cases in Hk.
  unfold _get_token_address, generate_payment_request, smallest_units.
  destruct Hk as [H|[H|[H|[H|[H|H]]]]]; rewrite H;
    (split; [split; [intros E; vm_compute in E; try discriminate E; reflexivity
                    | intros E; try discriminate E; reflexivity]|]);
    (split; [split; [intros E; vm_compute in E; try discriminate E; auto
                    | intros [E|E]; try discriminate E; reflexivity]|]);
    intros E; try discriminate E.
  intros amount resource description validity_seconds units Hu.
  destruct (py_mul amount (PyInt 1000000)) as [scaled|e]; [|discriminate Hu].
  cbn in Hu |- *. rewrite Hu. eexists. split; [reflexivity|].
  unfold _get_token_address. rewrite H. split; reflexivity.
Qed.

Lemma base_sepolia_gets_base_token_witness :
  In (x402_network
        (mkSettings true "0x0" "base-sepolia" "USDC" "" "" "" true 300 false))
     known_networks
  /\ _get_chain_id "base-sepolia" <> 8453
  /\ _get_token_address
       (mkSettings true "0x0" "base-sepolia" "USDC" "" "" "" true 300 false)
     = "0x833589fCD6eDb6E08f4c7C32D4f71b54bdA02913".
Proof.
  assert (Hk : In (x402_network
                     (mkSettings true "0x0" "base-sepolia" "USDC" "" "" ""
                        true 300 false)) known_networks)
    by (cbn; tauto).
  destruct (base_sepolia_gets_base_token _ Hk) as (H1 & H2 & _).
  split; [exact Hk|]. split.
  - intros E. apply H1 in E. discriminate E.
  - apply H2. right. reflexivity.
Defined.

(** ** The chain table against the table of the legacy client *)

Lemma EVM_NETWORK_TO_CHAIN_ID_cases (network : string) (id : Z) :
  EVM_NETWORK_TO_CHAIN_ID !! network = Some id ->
  (network = "base-sepolia" /\ id = 84532)
  \/ (network = "base" /\ id = 8453)
  \/ (network = "avalanche-fuji" /\ id = 43113)
  \/ (network = "avalanche" /\ id = 43114).
Proof.
  unfold EVM_NETWORK_TO_CHAIN_ID. intros H.
  repeat match type of H with
  | <[?k := _]> _ !! _ = _ =>
      destruct (decide (k = network)) as [<-|?];
      [rewrite lookup_insert_eq in H; injection H as <-; auto 10
      | rewrite lookup_insert_ne in H by assumption]
  end.
  rewrite lookup_empty in H. discriminate H.
Qed.

(** X13. The gate knows two of the four networks of the legacy client: for
    ["base"] and ["base-sepolia"] its chain id is the one of the client's
    table; for ["avalanche"] and ["avalanche-fuji"] it is 8453, the id of
    Base, which is not the id the client's table gives. *)
Theorem chain_id_of_client_network (network : string) (id : Z) :
  EVM_NETWORK_TO_CHAIN_ID !! network = Some id ->
  (_get_chain_id network = id
   <-> network = "base" \/ network = "base-sepolia")
  /\ (_get_chain_id network <> id -> _get_chain_id network = 8453).
Proof.
  intros H. apply EVM_NETWORK_TO_CHAIN_ID_cases in H.
  destruct H as [[-> ->]|[[-> ->]|[[-> ->]|[-> ->]]]];
    (split; [split; [intros E; vm_compute in E; try discriminate E; auto
                    | intros [E|E]; try discriminate E; reflexivity]
            | intros E; try reflexivity; exfalso; apply E; reflexivity]).
Qed.

Lemma chain_id_of_client_network_witness :
  EVM_NETWORK_TO_CHAIN_ID !! "avalanche" = Some 43114
  /\ _get_chain_id "avalanche" = 8453.
Proof.
  split; [reflexivity|].
  apply (chain_id_of_client_network "avalanche" 43114 eq_refl).
  intros E. discriminate E.
Defined.

(** ** The bulk endpoint *)

(** The cost of a bulk request within the bounds of its model: the price
    of one cent a piece is the float of that many cents. *)
Lemma bulk_total_cost (n : Z) :
  0 <= n <= 10 ->
  py_mul (PRICING !!! "bulk_per_asset") (PyInt n) = Ok (cents n).
Proof.
  intros Hn. rewrite <- (Z2Nat.id n) in Hn |- * by lia.
  generalize dependent (Z.to_nat n). intros k Hk.
  do 11 (destruct k as [|k]; [first [lia | vm_compute; reflexivity]|]).
  lia.
Qed.

Lemma py_str_cents (n : Z) :
  1 <= n <= 10 ->
  py_str (cents n) = if n =? 10 then "0.1" else "0.0" +:+ str_int n.
Proof.
  intros Hn. rewrite <- (Z2Nat.id n) in Hn |- * by lia.
  generalize dependent (Z.to_nat n). intros k Hk.
  do 11 (destruct k as [|k]; [first [lia | vm_compute; reflexivity]|]).
  lia.
Qed.

Section Bulk.

Variable settings : Settings.
Context {W Res : Type}.
Variable predict_bulk_body :
  BulkPredictionRequest -> pynum -> W -> result Res * W.

(** X14. The bulk endpoint does not validate: a request whose payment header
    holds any non-empty string is served, and the validator is not called.
    A proof of at most 20 characters, which the gate of the other paid
    endpoints refuses on the same HTTP request, buys the bulk predictions. *)
Theorem predict_bulk_never_validates (request : BulkPredictionRequest)
    (req : Request) (proof : string) (st : state) :
  (List.length (assets request) <= 10)%nat ->
  headers_get req "X-402-Payment" = Some proof ->
  py_bool_str proof = true ->
  let total_cost := cents (Z.of_nat (List.length (assets request))) in
  predict_bulk settings predict_bulk_body request req st
  = (fst (predict_bulk_body request total_cost (world st)),
     {| world := snd (predict_bulk_body request total_cost (world st));
        trace := trace st |})
  /\ (x402_enabled settings = true -> debug settings = false ->
      (String.length proof <= 20)%nat ->
      forall (amount : pynum) (description : string) (func : @Endpoint W Res),
        wrapper settings amount description None None None func
          [ObjRequest req] ∅ st
        = (Raise (HTTPException 402 "Invalid payment proof"),
           {| world := world st;
              trace := trace st ++ [EvValidate proof amount] |})).
Proof.
  intros Hl Hh Hp total_cost. split.
  - unfold predict_bulk, mbind, M_bind, lift.
    rewrite bulk_total_cost by lia. rewrite Hh. cbn [py_bool_opt].
    rewrite Hp. cbn [negb andb]. fold total_cost.
    destruct (predict_bulk_body request total_cost (world st)). reflexivity.
  - intros He Hd H20 amount description func.
    apply wrapper_rejected; [exact He | |].
    + split; [exact Hp | left; exact Hh].
    + apply _validate_payment_proof_false_iff. right. auto.
Qed.

(** X15. Without a payment header, and with gating enabled, the bulk
    endpoint answers a request for one to ten assets with status 402 and
    does not run the predictions; the price it announces, in the header
    [X-402-Price] and as [maxAmountRequired], is one cent a piece printed
    without float noise: ["0.01"] to ["0.09"], and ["0.1"] for ten. *)
Theorem post_predict_bulk_challenge (http : Request)
    (request : BulkPredictionRequest) (st : state) :
  x402_enabled settings = true ->
  py_bool_opt (headers_get http "X-402-Payment") = false ->
  (1 <= List.length (assets request) <= 10)%nat ->
  let n := Z.of_nat (List.length (assets request)) in
  let price := if n =? 10 then "0.1" else "0.0" +:+ str_int n in
  exists r,
    post_predict_bulk settings predict_bulk_body http request st
    = (PaymentRequired r, st)
    /\ status_code r = 402
    /\ response_headers r = [("X-402-Version", "1"); ("X-402-Price", price)]
    /\ List.map maxAmountRequired (content_accepts (content r)) = [price]
    /\ List.map description (content_accepts (content r))
       = ["Bulk prediction for " +:+ str_int n +:+ " assets"].
Proof.
  intros He Hh Hl n price.
  unfold post_predict_bulk, predict_bulk, mbind, M_bind, lift, raise.
  fold n. rewrite bulk_total_cost by lia. rewrite Hh, He. cbn [negb andb].
  cbn [respond]. eexists. split; [reflexivity|].
  cbn [payment_required_handler status_code response_headers content
       content_accepts List.map maxAmountRequired description exc_amount
       exc_description X402PaymentRequired_init].
  rewrite py_str_cents by lia. fold price. auto.
Qed.

End Bulk.

Lemma predict_bulk_never_validates_witness :
  (List.length (assets (mkBulkPredictionRequest [BTC; ETH; SOL] D1 "direction"))
   <= 10)%nat
  /\ headers_get (mkRequest (fun _ => Some "x") "/predict/bulk") "X-402-Payment"
     = Some "x"
  /\ fst (predict_bulk default_settings
            (fun _ _ calls => (Ok calls, S calls))
            (mkBulkPredictionRequest [BTC; ETH; SOL] D1 "direction")
            (mkRequest (fun _ => Some "x") "/predict/bulk")
            (mkState 0%nat []))
     = Ok 0%nat
  /\ fst (wrapper default_settings (PyFloat 0.01) "Price direction prediction"
            None None None counting_operation
            [ObjRequest (mkRequest (fun _ => Some "x") "/predict/bulk")] ∅
            (mkState 0%nat []))
     = Raise (HTTPException 402 "Invalid payment proof").
Proof.
  assert (Hl : (List.length
                  (assets (mkBulkPredictionRequest [BTC; ETH; SOL] D1 "direction"))
                <= 10)%nat) by (cbn; lia).
  destruct (predict_bulk_never_validates default_settings
              (fun _ _ calls => (Ok calls, S calls))
              (mkBulkPredictionRequest [BTC; ETH; SOL] D1 "direction")
              (mkRequest (fun _ => Some "x") "/predict/bulk") "x"
              (mkState 0%nat []) Hl eq_refl eq_refl) as [H1 H2].
  split; [exact Hl|]. split; [reflexivity|]. split.
  - rewrite H1. vm_compute. reflexivity.
  - rewrite (H2 eq_refl eq_refl ltac:(cbn; lia) (PyFloat 0.01)
               "Price direction prediction" counting_operation).
    reflexivity.
Defined.

Lemma post_predict_bulk_challenge_witness :
  x402_enabled default_settings = true
  /\ (1 <= List.length
             (assets (mkBulkPredictionRequest [BTC; ETH; SOL] D1 "direction"))
      <= 10)%nat
  /\ exists r,
       post_predict_bulk default_settings
         (fun _ _ calls => (Ok calls, S calls))
         bare_request (mkBulkPredictionRequest [BTC; ETH; SOL] D1 "direction")
         (mkState 0%nat [])
       = (PaymentRequired r, mkState 0%nat [])
       /\ response_headers r
          = [("X-402-Version", "1"); ("X-402-Price", "0.03")].
Proof.
  assert (Hl : (1 <= List.length
                       (assets (mkBulkPredictionRequest [BTC; ETH; SOL] D1
                                  "direction")) <= 10)%nat) by (cbn; lia).
  split; [reflexivity|]. split; [exact Hl|].
  destruct (post_predict_bulk_challenge default_settings
              (fun _ _ calls => (Ok calls, S calls))
              bare_request (mkBulkPredictionRequest [BTC; ETH; SOL] D1 "direction")
              (mkState 0%nat []) eq_refl eq_refl Hl)
    as (r & Hr & _ & Hh & _).
  exists r. split; [exact Hr | exact Hh].
Defined.

(** ** The decorated endpoints *)

(** X16. With gating enabled, none of the five decorated endpoints can be
    reached through the framework: each declares its body as the parameter
    [request], the wrapper takes the object under that keyword for the HTTP
    request, and reading [headers] from it raises [AttributeError] before
    any payment check; the endpoint body is not called. *)
Theorem paid_endpoints_keyword_body (settings : Settings) (W Res : Type)
    (b1 b2 b3 b4 b5 : @Endpoint W Res)
    (ep : list pyobj -> gmap string pyobj -> @M W Res)
    (o : pyobj) (st : @state W) :
  x402_enabled settings = true ->
  In ep (paid_endpoints settings b1 b2 b3 b4 b5) ->
  isinstance_Request o = false ->
  ep [] {["request" := o]} st = (Raise (AttributeError "headers"), st).
Proof.
  intros He Hin Ho. unfold paid_endpoints in Hin. cbn [In] in Hin.
  destruct Hin as [<-|[<-|[<-|[<-|[<-|[]]]]]];
    unfold predict_direction, predict_target, predict_confidence,
      predict_full, run_backtest, x402_paywall;
    apply wrapper_request_is_no_Request with (o := o);
    solve [exact He | exact Ho | reflexivity].
Qed.

Lemma paid_endpoints_keyword_body_witness :
  x402_enabled default_settings = true
  /\ predict_full default_settings counting_operation []
       {["request" := ObjPredictionRequest (mkPredictionRequest BTC D1)]}
       (mkState 0%nat [])
     = (Raise (AttributeError "headers"), mkState 0%nat []).
Proof.
  split; [reflexivity|].
  apply (paid_endpoints_keyword_body default_settings nat nat
           counting_operation counting_operation counting_operation
           counting_operation counting_operation
           (predict_full default_settings counting_operation)
           (ObjPredictionRequest (mkPredictionRequest BTC D1))
           (mkState 0%nat []) eq_refl);
    [cbn; tauto | reflexivity].
Defined.

(** ** The tables of the predictor *)

(** X17. Every asset and every timeframe that passes the validation of a
    request has its entry in the tables of the predictor, and the base price
    and the largest change that the predictor uses for it are those of the
    entry: the defaults 100 and 0.05 serve no validated request.  The tables
    have no other entries, and the assets that [get_model_info] lists are
    those of [get_assets], in the same order. *)
Theorem predictor_tables_cover_enums :
  (forall a : SupportedAsset,
     In (SupportedAsset_value a, base_price (SupportedAsset_value a))
        base_prices)
  /\ (forall t : Timeframe,
        In (Timeframe_value t, max_change (Timeframe_value t))
           timeframe_multipliers)
  /\ get_model_info_supported_assets = fst get_assets
  /\ List.map fst timeframe_multipliers = snd get_assets.
Proof.
  split; [|split; [|split; reflexivity]].
  - intros []; vm_compute; repeat (first [left; reflexivity | right]).
  - intros []; vm_compute; repeat (first [left; reflexivity | right]).
Qed.

(** X18. The simulated direction needs all three indicators to agree: it is
    bullish exactly when the RSI is under 50, the MACD over its signal and
    the short average over the long one, bearish exactly when none of the
    three holds, and sideways in the six mixed cases; two indicators
    against one never decide. *)
Theorem direction_needs_unanimity (rsi macd macd_signal ema_short ema_long : float) :
  let up1 := (rsi <? 50)%float in
  let up2 := (macd_signal <? macd)%float in
  let up3 := (ema_long <? ema_short)%float in
  let d := direction (bullish_score rsi macd macd_signal ema_short ema_long) in
  (d = "bullish" <-> up1 && up2 && up3 = true)
  /\ (d = "bearish" <-> up1 || up2 || up3 = false)
  /\ (d = "sideways" <-> up1 && up2 && up3 = false /\ up1 || up2 || up3 = true).
Proof.
  intros up1 up2 up3 d. subst d. unfold bullish_score.
  fold up1 up2 up3. destruct up1, up2, up3; cbn;
    (split; [|split]); split; try discriminate; try tauto;
    intros [? ?]; discriminate.
Qed.
